(** * Message templates of the Mod cog (src/mod/mod.py)

    A shallow embedding of [Mod.transform_parameter] and
    [Mod.transform_message], the two functions that render the configurable
    kick / ban / tempban / unban messages, together with the Python library
    operations they call: [re.findall] on the placeholder pattern,
    [str.replace], [str.split], [str.startswith], dictionary membership and
    subscription, [getattr] with a default and [str].

    Python strings are modelled as [string], the [objects] dictionary as a
    [gmap string pyobj], exceptions by a small error monad. *)

From Stdlib Require Import Ascii String Lia.
From Equations Require Import Equations.
From stdpp Require Import base option list gmap strings.

Local Open Scope string_scope.

(** ** Python values *)

(** The renderer observes two things of a value: its [str()] and the result
    of [getattr] on it.  [py_getattr o name = None] stands for the
    [AttributeError] of a missing attribute. *)
#[warning="-register-all"]
Inductive pyobj : Type :=
  PyObject (py_str : string) (py_getattr : string -> option pyobj).

(** [str(o)] *)
Definition str (o : pyobj) : string :=
  match o with PyObject s _ => s end.

(** A Python [str] used as a value: [str(s) == s]; the methods of [str]
    are left out of its attributes. *)
Definition PyStr (s : string) : pyobj := PyObject s (fun _ => None).

(** The attribute [name] of [o], if it has one. *)
Definition attribute (o : pyobj) (name : string) : option pyobj :=
  match o with PyObject _ attrs => attrs name end.

(** [getattr(o, name, default)]: the attribute, or [default] when the lookup
    raises [AttributeError]. *)
Definition getattr (o : pyobj) (name : string) (default : pyobj) : pyobj :=
  match attribute o name with
  | Some v => v
  | None => default
  end.

(** ** Exceptions *)

Inductive exn : Type := KeyError | ValueError.

Inductive outcome (A : Type) : Type :=
| Ok (a : A)
| Raise (e : exn).
Arguments Ok {A} a.
Arguments Raise {A} e.

#[global] Instance outcome_ret : MRet outcome := fun A a => Ok a.
#[global] Instance outcome_bind : MBind outcome := fun A B f m =>
  match m with Ok a => f a | Raise e => Raise e end.

(** [objects[key]] raises [KeyError] on a missing key. *)
Definition getitem (objects : gmap string pyobj) (key : string) : outcome pyobj :=
  match objects !! key with
  | Some v => Ok v
  | None => Raise KeyError
  end.

(** [key in objects] *)
Definition contains (objects : gmap string pyobj) (key : string) : bool :=
  bool_decide (is_Some (objects !! key)).

(** [a, b = parts] raises [ValueError] unless [parts] has exactly two items. *)
Definition unpack2 (parts : list string) : outcome (string * string) :=
  match parts with
  | [a; b] => Ok (a, b)
  | _ => Raise ValueError
  end.

(** ** String operations *)

(** [s.split(sep)] for a one-character separator: [n] separators give
    [n + 1] parts, empty ones included. *)
Fixpoint split (sep : ascii) (s : string) : list string :=
  match s with
  | "" => [""]
  | String c s' =>
      if Ascii.eqb c sep then "" :: split sep s'
      else match split sep s' with
           | p :: ps => String c p :: ps
           | [] => [String c ""]
           end
  end.

(** [s.startswith(p)] *)
Definition startswith (s p : string) : bool := String.prefix p s.

(** [strip_prefix p s = Some r] when [s = p ++ r]. *)
Fixpoint strip_prefix (p s : string) : option string :=
  match p, s with
  | "", _ => Some s
  | String a p', String b s' => if Ascii.eqb a b then strip_prefix p' s' else None
  | String _ _, "" => None
  end.

Lemma strip_prefix_length p s r :
  strip_prefix p s = Some r -> String.length s = String.length p + String.length r.
Proof.
  revert s; induction p as [|a p IH]; intros [|b s] H; simplify_eq/=; try done.
  destruct (Ascii.eqb a b); [|discriminate]. rewrite (IH _ H). reflexivity.
Qed.

(** Case analysis that keeps the equation, for the recursive definitions
    below. *)
Definition inspect {A : Type} (a : A) : {b : A | a = b} := exist _ a eq_refl.

(** [s.replace(old, new)]: every non-overlapping occurrence of [old], found
    from the left, is replaced by [new].  For the empty [old] Python puts
    [new] before every character and at the end. *)
Equations? replace_occurrences (s : string) (a : ascii) (old' new : string) : string
  by wf (String.length s) lt :=
replace_occurrences EmptyString a old' new := EmptyString;
replace_occurrences (String.String c s') a old' new
  with inspect (strip_prefix (String a old') (String c s')) := {
  | exist _ (Some r) H => new ++ replace_occurrences r a old' new
  | exist _ None _ => String c (replace_occurrences s' a old' new) }.
Proof.
  - apply strip_prefix_length in H. simpl in *. lia.
  - simpl; lia.
Qed.

Definition replace (s old new : string) : string :=
  match old with
  | "" => new ++ String.concat "" (map (fun c => String c new) (list_ascii_of_string s))
  | String a old' => replace_occurrences s a old' new
  end.

(** *** The placeholder pattern [{([^}]+)\}] *)

(** The greedy class [[^}]+]: the longest run of characters other than
    [}], and what follows it. *)
Fixpoint span_not_close (s : string) : string * string :=
  match s with
  | "" => ("", "")
  | String c s' =>
      if Ascii.eqb c "}" then ("", s)
      else let '(e, r) := span_not_close s' in (String c e, r)
  end.

(** One match attempt at the head of [s]: group 1 and the text after the
    match.  The run is greedy; giving characters back cannot help, since a
    shorter run is followed by a character that is not [}].  What follows
    the run is the closing [}], or nothing when the text ends. *)
Definition match_here (s : string) : option (string * string) :=
  match s with
  | String c s' =>
      if Ascii.eqb c "{" then
        match span_not_close s' with
        | (String a e, String _ r) => Some (String a e, r)
        | _ => None
        end
      else None
  | "" => None
  end.

Lemma span_not_close_length s e r :
  span_not_close s = (e, r) -> String.length s = String.length e + String.length r.
Proof.
  revert e r; induction s as [|c s IH]; intros e r H; simpl in *.
  - inversion H; reflexivity.
  - destruct (Ascii.eqb c "}").
    + inversion H; subst; reflexivity.
    + destruct (span_not_close s) as [e' r'] eqn:E. inversion H; subst.
      simpl. rewrite (IH _ _ eq_refl). reflexivity.
Qed.

Lemma match_here_length s e r :
  match_here s = Some (e, r) -> String.length r < String.length s.
Proof.
  destruct s as [|c s]; simpl; [discriminate|].
  destruct (Ascii.eqb c "{"); [|discriminate].
  destruct (span_not_close s) as [e' r'] eqn:E.
  destruct e' as [|a e']; [discriminate|].
  destruct r' as [|b r']; [discriminate|].
  intros H; inversion H; subst. apply span_not_close_length in E.
  simpl in *. lia.
Qed.

(** [re.findall(r"{([^}]+)\}", s)]: the matches are searched from the left
    and do not overlap; after a match the search resumes behind it, after a
    failed attempt one character further. *)
Equations? findall (s : string) : list string by wf (String.length s) lt :=
findall EmptyString := [];
findall (String.String c s') with inspect (match_here (String c s')) := {
  | exist _ (Some (e, r)) H => e :: findall r
  | exist _ None _ => findall s' }.
Proof.
  - apply match_here_length in H. simpl in *. lia.
  - simpl; lia.
Qed.

(** ** The renderer *)

(** [Mod.transform_parameter(result, objects)] *)
Definition transform_parameter (result : string) (objects : gmap string pyobj)
  : outcome string :=
  let raw_result := "{" ++ result ++ "}" in
  if contains objects result then
    v ← getitem objects result; mret (str v)
  else
    match unpack2 (split "." result) with
    | Raise ValueError => mret raw_result
    | Raise e => Raise e
    | Ok (first, second) =>
        if contains objects first && negb (startswith second "_") then
          first ← getitem objects first;
          mret (str (getattr first second (PyStr raw_result)))
        else mret raw_result
    end.

(** The loop of [Mod.transform_message]: one [replace] per found
    expression, in order, on the message as rewritten so far. *)
Fixpoint transform_loop (results : list string) (objects : gmap string pyobj)
    (message : string) : outcome string :=
  match results with
  | [] => mret message
  | result :: results' =>
      param ← transform_parameter result objects;
      transform_loop results' objects (replace message ("{" ++ result ++ "}") param)
  end.

(** [Mod.transform_message(message, objects)] *)
Definition transform_message (message : string) (objects : gmap string pyobj)
  : outcome string :=
  let results := findall message in
  transform_loop results objects message.

(** ** Names, expressions and binding contexts *)

(** [no_char c s]: the character [c] does not occur in [s]. *)
Fixpoint no_char (c : ascii) (s : string) : bool :=
  match s with
  | "" => true
  | String a s' => negb (Ascii.eqb a c) && no_char c s'
  end.

(** What group 1 of the pattern can hold: a non-empty text without [}]. *)
Definition placeholder_expr (e : string) : bool :=
  negb (String.eqb e "") && no_char "}" e.

(** Neither brace occurs. *)
Definition brace_free (s : string) : bool := no_char "{" s && no_char "}" s.

(** A bare name such as [user]: a non-empty text without braces or dots. *)
Definition bare_name (n : string) : bool :=
  negb (String.eqb n "") && brace_free n && no_char "." n.

(** A binding context maps top-level names to values: every key of the
    dictionaries built by the commands ([user], [moderator], [reason],
    [guild], [days], [duration]) is a bare name. *)
Definition binding_context (objects : gmap string pyobj) : Prop :=
  forall key, is_Some (objects !! key) -> bare_name key = true.

(** The text of a placeholder, braces included. *)
Definition literal (expr : string) : string := "{" ++ expr ++ "}".

(** The string an expression resolves to against [objects], if any: a key
    of [objects], or [first.second] with [first] a key, [second] not
    starting with an underscore and an attribute of [objects[first]]. *)
Definition resolve (objects : gmap string pyobj) (expr : string) : option string :=
  match objects !! expr with
  | Some v => Some (str v)
  | None =>
      match split "." expr with
      | [first; second] =>
          if startswith second "_" then None
          else match objects !! first with
               | Some o => str <$> attribute o second
               | None => None
               end
      | _ => None
      end
  end.

(** The resolved-or-fallback string of an expression. *)
Definition value (objects : gmap string pyobj) (expr : string) : string :=
  default (literal expr) (resolve objects expr).

(** The loop as a left fold of [replace] with the resolved-or-fallback
    strings. *)
Definition replace_each (objects : gmap string pyobj) (results : list string)
    (message : string) : string :=
  fold_left (fun m e => replace m (literal e) (value objects e)) results message.

(** ** Notions of the claims *)

(** The condition of the claim: the split on [.] gives exactly two parts
    and neither is empty. *)
Definition two_nonempty_parts (expr : string) : bool :=
  match split "." expr with
  | [first; second] => negb (String.eqb first "") && negb (String.eqb second "")
  | _ => false
  end.


Definition unresolvable (objects : gmap string pyobj) (expr : string) : Prop :=
  resolve objects expr = None.

(** [refers_to key expr]: the expression is [key], or a dotted expression
    with [key] as its first part. *)
Definition refers_to (key expr : string) : bool :=
  String.eqb expr key
  || match split "." expr with
     | first :: _ :: _ => String.eqb first key
     | _ => false
     end.

(** ** Simultaneous substitution *)

(** Simultaneous substitution, as the specification words it: given a
    table of texts and their replacements, every occurrence of a text of
    the table in [s] is replaced, in one pass over [s]; what a replacement
    puts into the output is not looked at again. *)
Fixpoint find_literal (table : list (string * string)) (s : string)
  : option (string * string) :=
  match table with
  | [] => None
  | (old, new) :: table' =>
      match old, strip_prefix old s with
      | String _ _, Some r => Some (new, r)
      | _, _ => find_literal table' s
      end
  end.

Lemma find_literal_length table (s new r : string) :
  find_literal table s = Some (new, r) -> String.length r < String.length s.
Proof.
  induction table as [|[old new'] table IH]; [done|]. cbn [find_literal].
  destruct old as [|a old]; [done|].
  destruct (strip_prefix (String a old) s) as [r'|] eqn:E; [|done].
  intros [= <- <-]. apply strip_prefix_length in E. simpl in E. lia.
Qed.

Equations? substitute_all (table : list (string * string)) (s : string) : string
  by wf (String.length s) lt :=
substitute_all table EmptyString := EmptyString;
substitute_all table (String.String c s') with inspect (find_literal table (String c s')) := {
  | exist _ (Some (new, r)) H => new ++ substitute_all table r
  | exist _ None _ => String c (substitute_all table s') }.
Proof.
  - apply find_literal_length in H. simpl in *. lia.
  - simpl; lia.
Qed.

(** The table of a template: each extracted placeholder with its
    resolved-or-fallback string. *)
Definition placeholder_table (objects : gmap string pyobj) (message : string)
  : list (string * string) :=
  map (fun e => (literal e, value objects e)) (findall message).

(** The same substitution driven by the scanner: each match is replaced by
    the string [sigma] gives its expression. *)
Equations? substitute (sigma : string -> string) (s : string) : string
  by wf (String.length s) lt :=
substitute sigma EmptyString := EmptyString;
substitute sigma (String.String c s') with inspect (match_here (String c s')) := {
  | exist _ (Some (e, r)) H => sigma e ++ substitute sigma r
  | exist _ None _ => String c (substitute sigma s') }.
Proof.
  - apply match_here_length in H. simpl in *. lia.
  - simpl; lia.
Qed.

(** The assignment after one [replace]: the placeholders of [e0] that were
    still in the text now carry [new]. *)
Definition update_value (tau : string -> string) (e0 new : string)
  : string -> string :=
  fun e => if String.eqb e e0 && String.eqb (tau e) (literal e) then new else tau e.

(** The assignment reached when the expressions of [seen] have been
    replaced: their placeholders carry their values, the others are still
    in the text. *)
Definition partial_value (objects : gmap string pyobj) (seen : list string)
  : string -> string :=
  fun e => if bool_decide (e ∈ seen) then value objects e else literal e.

(** No extracted expression contains [{], and no string an extracted
    expression resolves to contains [{]. *)
Definition plain_expressions (message : string) : Prop :=
  Forall (fun e => no_char "{" e = true) (findall message).

Definition plain_values (objects : gmap string pyobj) (message : string) : Prop :=
  Forall (fun e => forall v, resolve objects e = Some v -> no_char "{" v = true)
         (findall message).

(** ** Example values *)

(** A member with a name, an [id] and a private [_state]. *)
Definition member (name id : string) : pyobj :=
  PyObject name (fun a =>
    if String.eqb a "id" then Some (PyStr id)
    else if String.eqb a "_state" then Some (PyStr "<ConnectionState>")
    else None).

(** The dictionary of the kick command. *)
Definition kick_objects : gmap string pyobj :=
  <["user" := member "Bob" "42"]>
  (<["moderator" := member "Alice" "7"]>
  (<["reason" := PyStr "spam"]>
  (<["guild" := PyStr "TestServer"]> ∅))).

(** A value that answers every attribute name, the empty one included,
    as an object with a catch-all [__getattr__] does. *)
Definition catch_all (name : string) : pyobj :=
  PyObject name (fun _ => Some (PyStr "dynamic")).

(** A dictionary with such values and with the empty string as a key. *)
Definition odd_objects : gmap string pyobj :=
  <["user" := catch_all "Bob"]> (<["" := catch_all "nobody"]> ∅).

(** A reason that quotes a placeholder of the template. *)
Definition quoting_objects : gmap string pyobj :=
  <["reason" := PyStr "{moderator} said so"]> kick_objects.

(** ** Strings *)

Lemma append_cons c (s t : string) : String c s ++ t = String c (s ++ t).
Proof. reflexivity. Qed.

Lemma append_empty_l (s : string) : "" ++ s = s.
Proof. reflexivity. Qed.

Lemma append_empty_r (s : string) : s ++ "" = s.
Proof. induction s as [|c s IH]; [done|]. by rewrite append_cons, IH. Qed.

Lemma append_assoc (s t u : string) : (s ++ t) ++ u = s ++ t ++ u.
Proof. induction s as [|c s IH]; [done|]. by rewrite !append_cons, IH. Qed.

Lemma no_char_append c (s t : string) :
  no_char c (s ++ t) = no_char c s && no_char c t.
Proof.
  induction s as [|a s IH]; [done|].
  rewrite append_cons. simpl. rewrite IH. by rewrite andb_assoc.
Qed.

Lemma strip_prefix_app (p r : string) : strip_prefix p (p ++ r) = Some r.
Proof.
  induction p as [|a p IH]; [done|].
  rewrite append_cons. simpl. by rewrite Ascii.eqb_refl.
Qed.

Lemma strip_prefix_Some (p s r : string) :
  strip_prefix p s = Some r -> s = p ++ r.
Proof.
  revert s; induction p as [|a p IH]; intros [|b s] H; simplify_eq/=; try done.
  destruct (Ascii.eqb_spec a b) as [->|]; [|done].
  rewrite append_cons. f_equal. by apply IH.
Qed.

(** ** Equations of [replace] *)

(** Cases on the scrutinee that a definition [inspect]s. *)
Ltac inspect_cases :=
  match goal with
  | |- context [inspect ?x] => generalize (inspect x)
  end;
  first [ intros [[[? ?]|] ?] | intros [[?|] ?] ].

Lemma replace_empty (old new : string) : old <> "" -> replace "" old new = "".
Proof. destruct old; [done|]. intros _. unfold replace. by simp replace_occurrences. Qed.

Lemma replace_here (s old new r : string) :
  old <> "" -> strip_prefix old s = Some r ->
  replace s old new = new ++ replace r old new.
Proof.
  destruct old as [|a old]; [done|]. intros _ H. unfold replace.
  destruct s as [|c s]; [done|].
  simp replace_occurrences.
  inspect_cases; simp replace_occurrences; congruence.
Qed.

Lemma replace_skip (c : ascii) (s old new : string) :
  strip_prefix old (String c s) = None ->
  replace (String c s) old new = String c (replace s old new).
Proof.
  destruct old as [|a old]; [done|]. intros H. unfold replace.
  simp replace_occurrences.
  inspect_cases; simp replace_occurrences; congruence.
Qed.

(** ** The scanner *)

Lemma span_not_close_spec (s e r : string) :
  span_not_close s = (e, r) ->
  s = e ++ r /\ no_char "}" e = true /\ (r = "" \/ exists r', r = String "}" r').
Proof.
  revert e r; induction s as [|c s IH]; intros e r H; simpl in H.
  - simplify_eq. auto.
  - destruct (Ascii.eqb_spec c "}") as [->|Hc].
    + simplify_eq. eauto.
    + destruct (span_not_close s) as [e' r'] eqn:E. simplify_eq.
      destruct (IH _ _ eq_refl) as (-> & He & Hr). repeat split; [|done].
      simpl. rewrite He. by destruct (Ascii.eqb_spec c "}").
Qed.

Lemma span_not_close_close (e r : string) :
  no_char "}" e = true ->
  span_not_close (e ++ String "}" r) = (e, String "}" r).
Proof.
  induction e as [|c e IH]; [done|]. rewrite append_cons. simpl.
  intros [Hc He]%andb_prop. destruct (Ascii.eqb c "}"); [done|].
  by rewrite (IH He).
Qed.

Lemma span_not_close_all (s : string) :
  no_char "}" s = true -> span_not_close s = (s, "").
Proof.
  induction s as [|c s IH]; [done|]. simpl.
  intros [Hc Hs]%andb_prop. destruct (Ascii.eqb c "}"); [done|].
  by rewrite (IH Hs).
Qed.

Lemma placeholder_expr_cons (e : string) :
  placeholder_expr e = true ->
  exists a e', e = String a e' /\ no_char "}" e = true.
Proof.
  unfold placeholder_expr. destruct e as [|a e]; [done|].
  intros [_ H]%andb_prop. eauto.
Qed.

Lemma literal_app (e r : string) : literal e ++ r = String "{" (e ++ String "}" r).
Proof. unfold literal. by rewrite !append_assoc. Qed.

Lemma match_here_literal (e r : string) :
  placeholder_expr e = true -> match_here (literal e ++ r) = Some (e, r).
Proof.
  intros (a & e' & -> & He)%placeholder_expr_cons.
  rewrite literal_app. unfold match_here.
  change (Ascii.eqb "{" "{") with true. cbv iota.
  by rewrite (span_not_close_close _ _ He).
Qed.

Lemma match_here_Some (s e r : string) :
  match_here s = Some (e, r) ->
  s = literal e ++ r /\ placeholder_expr e = true.
Proof.
  destruct s as [|c s]; [done|]. simpl.
  destruct (Ascii.eqb_spec c "{") as [->|]; [|done].
  destruct (span_not_close s) as [e' r'] eqn:E.
  apply span_not_close_spec in E as (-> & He & Hr).
  destruct e' as [|a e']; [done|]. destruct r' as [|b r']; [done|].
  intros ?; simplify_eq. destruct Hr as [|[? ?]]; simplify_eq.
  split; [|by unfold placeholder_expr; rewrite He].
  by rewrite literal_app.
Qed.

Lemma match_here_None_cases (c : ascii) (s : string) :
  match_here (String c s) = None ->
  c <> "{"%char \/ (exists s', s = String "}" s') \/ no_char "}" s = true.
Proof.
  simpl. destruct (Ascii.eqb_spec c "{") as [->|]; [|auto].
  destruct (span_not_close s) as [e r] eqn:E.
  apply span_not_close_spec in E as (-> & He & Hr).
  destruct e as [|a e].
  - destruct Hr as [->|[r' ->]]; [by right; right|]. right; left. eauto.
  - destruct Hr as [->|[r' ->]]; [|done]. intros _. right; right.
    by rewrite append_empty_r.
Qed.

(** *** Equations of [findall] *)

Lemma findall_empty : findall "" = [].
Proof. by simp findall. Qed.

Lemma findall_match (s e r : string) :
  match_here s = Some (e, r) -> findall s = e :: findall r.
Proof.
  destruct s as [|c s]; [done|]. intros H. simp findall.
  inspect_cases; simp findall; congruence.
Qed.

Lemma findall_skip (c : ascii) (s : string) :
  match_here (String c s) = None -> findall (String c s) = findall s.
Proof.
  intros H. simp findall.
  inspect_cases; simp findall; congruence.
Qed.

Lemma findall_literal (e r : string) :
  placeholder_expr e = true -> findall (literal e ++ r) = e :: findall r.
Proof. intros He. apply findall_match. by apply match_here_literal. Qed.

(** Induction along the scan: a failed attempt moves one character on, a
    match moves behind the placeholder. *)
Lemma scan_ind (P : string -> Prop) :
  P "" ->
  (forall c s, match_here (String c s) = None -> P s -> P (String c s)) ->
  (forall e r, placeholder_expr e = true -> P r -> P (literal e ++ r)) ->
  forall s, P s.
Proof.
  intros Hnil Hskip Hmatch s.
  remember (String.length s) as n eqn:Hn.
  revert s Hn. induction n as [n IH] using lt_wf_ind. intros s ->.
  destruct s as [|c s]; [done|].
  destruct (match_here (String c s)) as [[e r]|] eqn:E.
  - pose proof (match_here_length _ _ _ E) as Hlen.
    apply match_here_Some in E as [-> He]. apply Hmatch; [done|].
    by apply (IH _ Hlen).
  - apply Hskip; [done|]. apply (IH (String.length s)); [simpl; lia|done].
Qed.

(** ** [transform_parameter] returns the resolved-or-fallback string *)

Lemma contains_true objects key :
  contains objects key = true <-> is_Some (objects !! key).
Proof. unfold contains. by rewrite bool_decide_eq_true. Qed.

Lemma contains_lookup objects key :
  contains objects key = match objects !! key with Some _ => true | None => false end.
Proof.
  unfold contains. destruct (objects !! key) eqn:E.
  - apply bool_decide_eq_true. eauto.
  - apply bool_decide_eq_false. by intros [? ?].
Qed.

Lemma transform_parameter_value (expr : string) (objects : gmap string pyobj) :
  transform_parameter expr objects = Ok (value objects expr).
Proof.
  unfold transform_parameter, value, resolve, getitem.
  rewrite contains_lookup. destruct (objects !! expr) as [v|]; [done|].
  destruct (split "." expr) as [|first [|second [|]]]; try done. simpl.
  rewrite contains_lookup.
  destruct (startswith second "_");
    [by rewrite andb_false_r|rewrite andb_true_r].
  destruct (objects !! first) as [o|]; [|done]. simpl. unfold getattr.
  by destruct (attribute o second).
Qed.

Lemma transform_loop_value (results : list string) objects (message : string) :
  transform_loop results objects message = Ok (replace_each objects results message).
Proof.
  revert message; induction results as [|e es IH]; intros m; [done|].
  simpl. rewrite transform_parameter_value. simpl. apply IH.
Qed.

Lemma transform_message_value (message : string) objects :
  transform_message message objects
  = Ok (replace_each objects (findall message) message).
Proof. apply transform_loop_value. Qed.

(** ** Facts about [replace] *)

Lemma replace_same (s old : string) : old <> "" -> replace s old old = s.
Proof.
  intros Hold. remember (String.length s) as n eqn:Hn.
  revert s Hn. induction n as [n IH] using lt_wf_ind. intros s ->.
  destruct s as [|c s]; [by apply replace_empty|].
  destruct (strip_prefix old (String c s)) as [r|] eqn:E.
  - rewrite (replace_here _ _ _ _ Hold E).
    pose proof (strip_prefix_length _ _ _ E) as Hlen.
    apply strip_prefix_Some in E. rewrite E. f_equal.
    apply (IH (String.length r)); [|done].
    destruct old; [done|]. simpl in *. lia.
  - rewrite (replace_skip _ _ _ _ E). f_equal.
    apply (IH (String.length s)); [simpl; lia|done].
Qed.

Lemma replace_whole (old new : string) : old <> "" -> replace old old new = new.
Proof.
  intros Hold. rewrite (replace_here old old new ""); [|done|].
  - by rewrite replace_empty, append_empty_r.
  - rewrite <- (append_empty_r old) at 2. apply strip_prefix_app.
Qed.

(** A template that is one placeholder. *)
Lemma findall_single (e : string) :
  placeholder_expr e = true -> findall (literal e) = [e].
Proof.
  intros He. rewrite <- (append_empty_r (literal e)).
  by rewrite findall_literal, findall_empty.
Qed.

Lemma transform_message_single (e : string) objects :
  placeholder_expr e = true ->
  transform_message (literal e) objects = Ok (value objects e).
Proof.
  intros He. rewrite transform_message_value, findall_single by done.
  unfold replace_each. cbn [fold_left]. by rewrite replace_whole.
Qed.

(** ** Facts about [split] *)

Lemma split_nonempty (sep : ascii) (s : string) : split sep s <> [].
Proof.
  destruct s as [|c s]; [done|]. simpl.
  destruct (Ascii.eqb c sep); [done|]. by destruct (split sep s).
Qed.

Lemma split_no_sep (sep : ascii) (s : string) :
  no_char sep s = true -> split sep s = [s].
Proof.
  induction s as [|c s IH]; [done|]. simpl.
  intros [Hc Hs]%andb_prop. destruct (Ascii.eqb c sep); [done|].
  by rewrite (IH Hs).
Qed.

Lemma split_single (sep : ascii) (s p : string) :
  split sep s = [p] -> p = s /\ no_char sep s = true.
Proof.
  revert p; induction s as [|c s IH]; intros p; simpl.
  - by intros [= <-].
  - destruct (Ascii.eqb c sep).
    + intros [= <- H]. by apply split_nonempty in H.
    + destruct (split sep s) as [|q qs] eqn:E; [by apply split_nonempty in E|].
      intros [= <- ->]. by destruct (IH _ eq_refl) as [-> ->].
Qed.

Lemma split_at_sep (sep : ascii) (a b : string) :
  no_char sep a = true ->
  split sep (a ++ String sep b) = a :: split sep b.
Proof.
  induction a as [|c a IH].
  - intros _. rewrite append_empty_l. simpl. by rewrite Ascii.eqb_refl.
  - rewrite append_cons. simpl. intros [Hc Ha]%andb_prop.
    destruct (Ascii.eqb c sep); [done|]. by rewrite (IH Ha).
Qed.

(** ** Facts about names and binding contexts *)

Lemma bare_name_parts (n : string) :
  bare_name n = true ->
  n <> "" /\ no_char "{" n = true /\ no_char "}" n = true /\ no_char "." n = true.
Proof.
  unfold bare_name, brace_free.
  intros [[Hn [H1 H2]%andb_prop]%andb_prop H3]%andb_prop.
  repeat split; try done. by intros ->.
Qed.

Lemma bare_name_placeholder_expr (n : string) :
  bare_name n = true -> placeholder_expr n = true.
Proof.
  intros (Hn & _ & H & _)%bare_name_parts. unfold placeholder_expr.
  rewrite H, andb_true_r. by destruct n.
Qed.

Lemma binding_context_not_key objects (expr : string) :
  binding_context objects -> bare_name expr = false -> objects !! expr = None.
Proof.
  intros Hctx Hexpr. destruct (objects !! expr) as [v|] eqn:E; [|done].
  rewrite Hctx in Hexpr; [done|eauto].
Qed.

Lemma binding_context_empty : binding_context ∅.
Proof. intros key [v H]. by rewrite lookup_empty in H. Qed.

Lemma binding_context_insert objects (key : string) (v : pyobj) :
  bare_name key = true -> binding_context objects ->
  binding_context (<[key:=v]> objects).
Proof.
  intros Hkey Hctx k [w H]. apply lookup_insert_Some in H as [[<- _]|[_ H]]; eauto.
Qed.

Lemma dotted_not_bare (first second : string) :
  bare_name (first ++ "." ++ second) = false.
Proof.
  unfold bare_name. rewrite !no_char_append. simpl.
  by rewrite andb_false_r, !andb_false_r.
Qed.

Lemma dotted_placeholder_expr (first second : string) :
  no_char "}" first = true -> no_char "}" second = true ->
  placeholder_expr (first ++ "." ++ second) = true.
Proof.
  intros H1 H2. unfold placeholder_expr. rewrite !no_char_append, H1, H2.
  by destruct first.
Qed.

Lemma split_dotted (first second : string) :
  no_char "." first = true ->
  split "." (first ++ "." ++ second) = first :: split "." second.
Proof. intros H. by apply (split_at_sep "." first second). Qed.

(** ** The scenarios of the specification *)

Example ban_message_rendered :
  transform_message "{user} was banned by {moderator} for {reason} in {guild}"
    kick_objects
  = Ok "Bob was banned by Alice for spam in TestServer".
Proof. reflexivity. Qed.

Example missing_attribute_kept :
  transform_message "Hi {user.nickname}" kick_objects = Ok "Hi {user.nickname}".
Proof. reflexivity. Qed.

Lemma kick_objects_binding_context : binding_context kick_objects.
Proof.
  unfold kick_objects.
  repeat (apply binding_context_insert; [reflexivity|]).
  apply binding_context_empty.
Qed.

(** ** Single placeholders (C2, C4, C5, C6, C9, C10) *)

Lemma value_key objects (expr : string) (v : pyobj) :
  objects !! expr = Some v -> value objects expr = str v.
Proof. intros H. unfold value, resolve. by rewrite H. Qed.

Lemma value_not_two_parts objects (expr : string) :
  objects !! expr = None -> length (split "." expr) <> 2 ->
  value objects expr = literal expr.
Proof.
  intros H Hlen. unfold value, resolve. rewrite H.
  by destruct (split "." expr) as [|first [|second [|]]].
Qed.

(** C6: for a bare name that is a key of the context, rendering the
    placeholder [{name}] gives [str(ctx[name])]; for a bare name that is not
    a key, rendering gives the placeholder back unchanged. *)
Theorem bare_name_rendered objects (name : string) :
  bare_name name = true ->
  (forall v, objects !! name = Some v ->
     transform_message (literal name) objects = Ok (str v))
  /\ (objects !! name = None ->
     transform_message (literal name) objects = Ok (literal name)).
Proof.
  intros Hname. pose proof (bare_name_placeholder_expr _ Hname) as He.
  apply bare_name_parts in Hname as (_ & _ & _ & Hdot).
  split.
  - intros v Hv. rewrite transform_message_single by done.
    by rewrite (value_key _ _ _ Hv).
  - intros Hnone. rewrite transform_message_single by done.
    rewrite value_not_two_parts; [done..|].
    by rewrite split_no_sep.
Qed.

Lemma bare_name_rendered_witness :
  bare_name "user" = true
  /\ transform_message "{user}" kick_objects = Ok "Bob"
  /\ transform_message "{channel}" kick_objects = Ok "{channel}".
Proof.
  split; [reflexivity|]. split.
  - apply (proj1 (bare_name_rendered kick_objects "user" eq_refl)
             (member "Bob" "42")).
    reflexivity.
  - apply (proj2 (bare_name_rendered kick_objects "channel" eq_refl)).
    reflexivity.
Defined.

Lemma findall_placeholder_expr (s : string) :
  Forall (fun e => placeholder_expr e = true) (findall s).
Proof.
  induction s as [| c s Hc IH | e r He IH] using scan_ind.
  - rewrite findall_empty. constructor.
  - by rewrite findall_skip.
  - rewrite findall_literal by done. by constructor.
Qed.






(** C9: braces cannot be escaped by doubling them: in a binding context the
    template ["{{user}}"] holds the single expression ["{user"], which is
    not resolved, and the template is rendered unchanged, whether or not
    [user] is bound. *)
Theorem doubled_braces_not_escaped objects :
  binding_context objects ->
  findall "{{user}}" = ["{user"]
  /\ transform_parameter "{user" objects = Ok "{{user}"
  /\ transform_message "{{user}}" objects = Ok "{{user}}".
Proof.
  intros Hctx.
  assert (value objects "{user" = "{{user}") as Hvalue.
  { apply value_not_two_parts; [|by compute].
    by apply binding_context_not_key. }
  split; [reflexivity|]. split.
  - by rewrite transform_parameter_value, Hvalue.
  - rewrite transform_message_value.
    change (findall "{{user}}") with ["{user"].
    unfold replace_each. cbn [fold_left]. rewrite Hvalue.
    change (literal "{user") with "{{user}". by rewrite replace_same.
Qed.

Lemma doubled_braces_not_escaped_witness :
  is_Some (kick_objects !! "user")
  /\ transform_message "{{user}}" kick_objects = Ok "{{user}}".
Proof.
  split; [by eexists|].
  apply (doubled_braces_not_escaped kick_objects kick_objects_binding_context).
Defined.

(** C2: in a binding context, for a bound name [n] and an attribute name
    [a] that starts with an underscore, the placeholder [{n.a}] is rendered
    unchanged, whatever attributes the value of [n] has. *)
Theorem private_attribute_not_substituted objects (n a : string) :
  binding_context objects ->
  is_Some (objects !! n) ->
  startswith a "_" = true ->
  no_char "}" a = true ->
  transform_message (literal (n ++ "." ++ a)) objects
  = Ok (literal (n ++ "." ++ a)).
Proof.
  intros Hctx Hn Ha Hclose.
  apply Hctx, bare_name_parts in Hn as (_ & _ & Hn & Hdot).
  rewrite transform_message_single by by apply dotted_placeholder_expr.
  f_equal. unfold value, resolve.
  rewrite (binding_context_not_key _ _ Hctx (dotted_not_bare n a)).
  rewrite split_dotted by done.
  destruct (split "." a) as [|second [|]] eqn:E; try done.
  apply split_single in E as [-> _]. by rewrite Ha.
Qed.

Lemma private_attribute_not_substituted_witness :
  is_Some (attribute (member "Bob" "42") "_state")
  /\ transform_message "{user._state}" kick_objects = Ok "{user._state}".
Proof.
  split; [by eexists|].
  apply (private_attribute_not_substituted kick_objects "user" "_state").
  - apply kick_objects_binding_context.
  - by eexists.
  - reflexivity.
  - reflexivity.
Defined.

(** C4: in a binding context, for a bound name [first] and an attribute
    [second] of its value whose name does not start with an underscore, the
    placeholder [{first.second}] is rendered as
    [str(getattr(ctx[first], second))]. *)
Theorem public_attribute_substituted objects (first second : string) (o : pyobj) :
  binding_context objects ->
  objects !! first = Some o ->
  is_Some (attribute o second) ->
  startswith second "_" = false ->
  no_char "}" second = true ->
  no_char "." second = true ->
  forall default,
  transform_message (literal (first ++ "." ++ second)) objects
  = Ok (str (getattr o second default)).
Proof.
  intros Hctx Hfirst [v Hv] Hpublic Hclose Hnodot default.
  assert (is_Some (objects !! first)) as Hkey by eauto.
  apply Hctx, bare_name_parts in Hkey as (_ & _ & Hn & Hdot).
  rewrite transform_message_single by by apply dotted_placeholder_expr.
  f_equal. unfold value, resolve.
  rewrite (binding_context_not_key _ _ Hctx (dotted_not_bare first second)).
  rewrite split_dotted, (split_no_sep "." second) by done.
  rewrite Hpublic, Hfirst. unfold getattr. by rewrite Hv.
Qed.

Lemma public_attribute_substituted_witness :
  transform_message "{user.id}" kick_objects = Ok "42".
Proof.
  apply (public_attribute_substituted kick_objects "user" "id"
           (member "Bob" "42")) with (default := PyStr "").
  - apply kick_objects_binding_context.
  - reflexivity.
  - by eexists.
  - reflexivity.
  - reflexivity.
  - reflexivity.
Defined.

(** *** Malformed expressions (C5) *)

(** C5, as stated, fails: [user] has no dot, so its split is not two
    non-empty parts, yet where [user] is bound the placeholder is replaced
    by the value.  An empty part does not stop the resolution either, when
    the empty string is a key or names an attribute. *)
Lemma zero_dots_bound_name_resolves :
  transform_message "{user}" kick_objects = Ok "Bob"
  /\ transform_message "{user.}" odd_objects = Ok "dynamic"
  /\ transform_message "{.id}" odd_objects = Ok "dynamic"
  /\ ~ (forall objects expr,
       placeholder_expr expr = true ->
       two_nonempty_parts expr = false ->
       transform_message (literal expr) objects = Ok (literal expr)).
Proof.
  do 3 (split; [reflexivity|]).
  intros H. specialize (H kick_objects "user" eq_refl eq_refl).
  vm_compute in H. discriminate H.
Qed.

(** C5, amended: an expression that is not itself a key of the context and
    whose split on [.] is not two non-empty parts is rendered unchanged,
    provided the empty string is neither a key of the context nor an
    attribute of one of its values. *)
Theorem malformed_expression_fallback objects (expr : string) :
  placeholder_expr expr = true ->
  objects !! expr = None ->
  two_nonempty_parts expr = false ->
  objects !! "" = None ->
  (forall key o, objects !! key = Some o -> attribute o "" = None) ->
  transform_message (literal expr) objects = Ok (literal expr).
Proof.
  intros He Hexpr Hparts Hkey Hattr.
  rewrite transform_message_single by done. f_equal.
  unfold value, resolve. rewrite Hexpr. unfold two_nonempty_parts in Hparts.
  destruct (split "." expr) as [|first [|second [|]]]; try done.
  destruct (startswith second "_"); [done|].
  destruct (String.eqb_spec first "") as [->|]; [by rewrite Hkey|].
  destruct (objects !! first) as [o|] eqn:E; [|done].
  destruct (String.eqb_spec second "") as [Hs|]; [|done].
  rewrite Hs. by rewrite (Hattr _ _ E).
Qed.

Lemma malformed_expression_fallback_witness :
  transform_message "{user.id.real}" kick_objects = Ok "{user.id.real}"
  /\ transform_message "{user.}" kick_objects = Ok "{user.}"
  /\ transform_message "{.id}" kick_objects = Ok "{.id}"
  /\ transform_message "{channel}" kick_objects = Ok "{channel}".
Proof.
  assert (forall key o, kick_objects !! key = Some o -> attribute o "" = None)
    as Hattr.
  { intros key o. unfold kick_objects. rewrite !lookup_insert_Some, lookup_empty.
    intros H. repeat destruct H as [[_ <-]|[_ H]]; done. }
  split; [|split; [|split]].
  - by apply (malformed_expression_fallback kick_objects "user.id.real").
  - by apply (malformed_expression_fallback kick_objects "user.").
  - by apply (malformed_expression_fallback kick_objects ".id").
  - by apply (malformed_expression_fallback kick_objects "channel").
Defined.

(** ** No exception escapes (C3) *)



(** ** Unresolvable placeholders (C7) *)

Lemma replace_each_fallback objects (es : list string) (message : string) :
  Forall (fun e => value objects e = literal e) es ->
  replace_each objects es message = message.
Proof.
  intros Hes. induction Hes as [|e es He _ IH]; [done|].
  unfold replace_each in *. cbn [fold_left].
  by rewrite He, replace_same.
Qed.

Lemma unresolvable_value objects (expr : string) :
  unresolvable objects expr -> value objects expr = literal expr.
Proof. unfold unresolvable, value. by intros ->. Qed.

(** C7: a template all of whose placeholders are unresolvable is rendered
    unchanged, and rendering the output again gives the same string. *)
Theorem fallback_idempotent (message : string) objects :
  Forall (unresolvable objects) (findall message) ->
  transform_message message objects = Ok message
  /\ (out ← transform_message message objects; transform_message out objects)
     = transform_message message objects.
Proof.
  intros Hall.
  assert (transform_message message objects = Ok message) as H.
  { rewrite transform_message_value. f_equal. apply replace_each_fallback.
    eapply Forall_impl; [done|]. apply unresolvable_value. }
  split; [done|]. rewrite H. simpl. by rewrite H.
Qed.

Lemma fallback_idempotent_witness :
  transform_message "{user._state} left {channel.name} {}" kick_objects
  = Ok "{user._state} left {channel.name} {}".
Proof.
  apply (fallback_idempotent "{user._state} left {channel.name} {}" kick_objects).
  change (findall "{user._state} left {channel.name} {}")
    with ["user._state"; "channel.name"].
  repeat constructor.
Defined.

(** The case of C7 without placeholders. *)
Lemma no_placeholders_unchanged (message : string) objects :
  findall message = [] -> transform_message message objects = Ok message.
Proof. intros H. by rewrite transform_message_value, H. Qed.

(** ** Unused bindings (C8) *)

Lemma value_insert_unused objects (key expr : string) (v : pyobj) :
  refers_to key expr = false ->
  value (<[key:=v]> objects) expr = value objects expr.
Proof.
  unfold refers_to. intros [Hne Hfirst]%orb_false_elim.
  apply String.eqb_neq in Hne. unfold value, resolve.
  rewrite lookup_insert_ne by done.
  destruct (split "." expr) as [|first [|second [|]]]; try done.
  apply String.eqb_neq in Hfirst. by rewrite lookup_insert_ne.
Qed.

Lemma replace_each_ext objects objects' (es : list string) (message : string) :
  Forall (fun e => value objects' e = value objects e) es ->
  replace_each objects' es message = replace_each objects es message.
Proof.
  intros Hes. revert message.
  induction Hes as [|e es He _ IH]; intros message; [done|].
  unfold replace_each in *. cbn [fold_left]. by rewrite He, IH.
Qed.

(** C8: a binding for a key that no extracted expression names, neither as
    the whole expression nor as the first part of a dotted expression, does
    not change the output, and rendering still returns a string. *)
Theorem unused_binding_harmless (message : string) objects (key : string) (v : pyobj) :
  Forall (fun e => refers_to key e = false) (findall message) ->
  transform_message message (<[key:=v]> objects)
  = transform_message message objects
  /\ exists out, transform_message message (<[key:=v]> objects) = Ok out.
Proof.
  intros Hall. rewrite !transform_message_value. split; [|by eexists].
  f_equal. apply replace_each_ext.
  eapply Forall_impl; [done|]. intros e He. by apply value_insert_unused.
Qed.

Lemma unused_binding_harmless_witness :
  transform_message "{user} was kicked by {moderator.id}"
    (<["days" := PyStr "3"]> kick_objects)
  = transform_message "{user} was kicked by {moderator.id}" kick_objects.
Proof.
  apply (unused_binding_harmless "{user} was kicked by {moderator.id}"
           kick_objects "days" (PyStr "3")).
  change (findall "{user} was kicked by {moderator.id}")
    with ["user"; "moderator.id"].
  repeat constructor.
Defined.

(** ** Sequential and simultaneous substitution (C1) *)

Lemma substitute_all_empty table : substitute_all table "" = "".
Proof. by simp substitute_all. Qed.

Lemma substitute_all_found table (s new r : string) :
  find_literal table s = Some (new, r) ->
  substitute_all table s = new ++ substitute_all table r.
Proof.
  intros H. pose proof (find_literal_length _ _ _ _ H) as Hlen.
  destruct s as [|c s]; [simpl in Hlen; lia|]. simp substitute_all.
  inspect_cases; simp substitute_all; congruence.
Qed.

Lemma substitute_all_skip table (c : ascii) (s : string) :
  find_literal table (String c s) = None ->
  substitute_all table (String c s) = String c (substitute_all table s).
Proof.
  intros H. simp substitute_all.
  inspect_cases; simp substitute_all; congruence.
Qed.

Lemma substitute_empty sigma : substitute sigma "" = "".
Proof. by simp substitute. Qed.

Lemma substitute_match sigma (s e r : string) :
  match_here s = Some (e, r) ->
  substitute sigma s = sigma e ++ substitute sigma r.
Proof.
  destruct s as [|c s]; [done|]. intros H. simp substitute.
  inspect_cases; simp substitute; congruence.
Qed.

Lemma substitute_skip sigma (c : ascii) (s : string) :
  match_here (String c s) = None ->
  substitute sigma (String c s) = String c (substitute sigma s).
Proof.
  intros H. simp substitute.
  inspect_cases; simp substitute; congruence.
Qed.

Lemma substitute_literal sigma (e r : string) :
  placeholder_expr e = true ->
  substitute sigma (literal e ++ r) = sigma e ++ substitute sigma r.
Proof. intros He. apply substitute_match. by apply match_here_literal. Qed.

(** *** The table and the scanner replace the same occurrences *)

Lemma strip_prefix_literal_match (e s r : string) :
  placeholder_expr e = true ->
  strip_prefix (literal e) s = Some r -> match_here s = Some (e, r).
Proof.
  intros He ->%strip_prefix_Some. by apply match_here_literal.
Qed.

Lemma find_literal_no_match sigma (es : list string) (s : string) :
  Forall (fun e => placeholder_expr e = true) es ->
  match_here s = None ->
  find_literal (map (fun e => (literal e, sigma e)) es) s = None.
Proof.
  intros Hes Hs. induction Hes as [|e es He _ IH]; [done|].
  cbn [map find_literal]. change (literal e) with (String "{" (e ++ "}")).
  cbv iota.
  destruct (strip_prefix (String "{" (e ++ "}")) s) as [r|] eqn:E; [|done].
  apply (strip_prefix_literal_match e s r He) in E. congruence.
Qed.

Lemma find_literal_match sigma (es : list string) (e r : string) :
  Forall (fun e => placeholder_expr e = true) es ->
  e ∈ es ->
  find_literal (map (fun e => (literal e, sigma e)) es) (literal e ++ r)
  = Some (sigma e, r).
Proof.
  intros Hes Hin. induction Hes as [|e' es He' Hes IH]; [by apply elem_of_nil in Hin|].
  cbn [map find_literal]. change (literal e') with (String "{" (e' ++ "}")).
  cbv iota.
  destruct (strip_prefix (String "{" (e' ++ "}")) (literal e ++ r)) as [r'|] eqn:E.
  - apply (strip_prefix_literal_match e' _ r' He') in E.
    apply match_here_Some in E as H. destruct H as [_ He].
    rewrite match_here_literal in E by (apply elem_of_cons in Hin as [->|Hin]; [done|];
      by eapply Forall_forall in Hes).
    by simplify_eq.
  - apply elem_of_cons in Hin as [->|Hin]; [|by apply IH].
    change (String "{" (e' ++ "}")) with (literal e') in E.
    by rewrite strip_prefix_app in E.
Qed.

Lemma substitute_all_table sigma (es : list string) (s : string) :
  Forall (fun e => placeholder_expr e = true) es ->
  findall s ⊆ es ->
  substitute_all (map (fun e => (literal e, sigma e)) es) s = substitute sigma s.
Proof.
  intros Hes. induction s as [| c s Hc IH | e r He IH] using scan_ind; intros Hsub.
  - by rewrite substitute_all_empty, substitute_empty.
  - rewrite substitute_all_skip by by apply find_literal_no_match.
    rewrite substitute_skip by done. f_equal. apply IH.
    by rewrite findall_skip in Hsub.
  - rewrite findall_literal in Hsub by done.
    rewrite (substitute_all_found _ _ (sigma e) r).
    + rewrite substitute_literal by done. f_equal. apply IH. set_solver.
    + apply find_literal_match; [done|]. set_solver.
Qed.

(** *** Facts about [substitute] *)

Lemma substitute_ext sigma sigma' (s : string) :
  Forall (fun e => sigma e = sigma' e) (findall s) ->
  substitute sigma s = substitute sigma' s.
Proof.
  induction s as [| c s Hc IH | e r He IH] using scan_ind.
  - intros _. by rewrite !substitute_empty.
  - rewrite findall_skip by done. intros H.
    rewrite !substitute_skip by done. f_equal. by apply IH.
  - rewrite findall_literal by done. intros [Heq H]%Forall_cons.
    rewrite !substitute_literal by done. rewrite Heq. f_equal. by apply IH.
Qed.

Lemma substitute_identity (s : string) : substitute literal s = s.
Proof.
  induction s as [| c s Hc IH | e r He IH] using scan_ind.
  - by rewrite substitute_empty.
  - rewrite substitute_skip by done. by rewrite IH.
  - rewrite substitute_literal by done. by rewrite IH.
Qed.

Lemma match_here_no_close (s : string) :
  no_char "}" s = true -> match_here s = None.
Proof.
  intros Hs. destruct (match_here s) as [[e r]|] eqn:E; [|done].
  apply match_here_Some in E as [-> _].
  rewrite literal_app in Hs. simpl in Hs. rewrite no_char_append in Hs. simpl in Hs.
  by rewrite andb_false_r in Hs.
Qed.

Lemma substitute_no_close sigma (s : string) :
  no_char "}" s = true -> substitute sigma s = s.
Proof.
  induction s as [|c s IH]; [by rewrite substitute_empty|]. intros Hs.
  rewrite substitute_skip by by apply match_here_no_close.
  simpl in Hs. apply andb_prop in Hs as [_ Hs]. by rewrite IH.
Qed.

Lemma match_here_substitute_skip sigma (c : ascii) (s : string) :
  match_here (String c s) = None ->
  match_here (String c (substitute sigma s)) = None.
Proof.
  intros H. destruct (match_here_None_cases _ _ H) as [Hc|[[s' ->]|Hs]].
  - simpl. by destruct (Ascii.eqb_spec c "{").
  - rewrite substitute_skip by done. simpl. by destruct (Ascii.eqb c "{").
  - by rewrite substitute_no_close.
Qed.

(** *** One [replace] on a partly substituted template *)

Lemma strip_prefix_literal_first (e : string) (c : ascii) (s : string) :
  c <> "{"%char -> strip_prefix (literal e) (String c s) = None.
Proof.
  intros Hc. change (literal e) with (String "{" (e ++ "}")).
  cbn [strip_prefix]. destruct (Ascii.eqb_spec "{" c); congruence.
Qed.

Lemma no_char_head (c a : ascii) (s : string) :
  no_char c (String a s) = true -> a <> c /\ no_char c s = true.
Proof.
  simpl. intros [Ha Hs]%andb_prop. split; [|done].
  destruct (Ascii.eqb_spec a c); [discriminate Ha|done].
Qed.

Lemma replace_over_no_open (w rest e0 new : string) :
  no_char "{" w = true ->
  replace (w ++ rest) (literal e0) new = w ++ replace rest (literal e0) new.
Proof.
  induction w as [|c w IH]; [done|].
  intros [Hc Hw]%no_char_head. rewrite !append_cons.
  rewrite replace_skip by by apply strip_prefix_literal_first.
  by rewrite IH.
Qed.

Lemma replace_over_literal (e rest e0 new : string) :
  placeholder_expr e = true -> placeholder_expr e0 = true ->
  no_char "{" e = true -> e <> e0 ->
  replace (literal e ++ rest) (literal e0) new
  = literal e ++ replace rest (literal e0) new.
Proof.
  intros He He0 Hopen Hne.
  assert (strip_prefix (literal e0) (literal e ++ rest) = None) as Hnone.
  { destruct (strip_prefix (literal e0) (literal e ++ rest)) as [r|] eqn:E; [|done].
    apply (strip_prefix_literal_match e0 _ r He0) in E.
    rewrite match_here_literal in E by done. congruence. }
  rewrite !literal_app in *. rewrite replace_skip by done. f_equal.
  change (String "}" rest) with ("}" ++ rest).
  change (String "}" (replace rest (literal e0) new))
    with ("}" ++ replace rest (literal e0) new).
  rewrite <- !append_assoc. apply replace_over_no_open.
  rewrite no_char_append, Hopen. done.
Qed.

Lemma no_open_not_literal (s e : string) : no_char "{" s = true -> s <> literal e.
Proof. intros H ->. by compute in H. Qed.

Lemma replace_substitute (tau : string -> string) (e0 new t : string) :
  placeholder_expr e0 = true ->
  Forall (fun e => no_char "{" e = true
                   /\ (tau e = literal e \/ no_char "{" (tau e) = true))
         (findall t) ->
  replace (substitute tau t) (literal e0) new
  = substitute (update_value tau e0 new) t.
Proof.
  intros He0. induction t as [| c s Hc IH | e r He IH] using scan_ind.
  - intros _. by rewrite !substitute_empty, replace_empty.
  - rewrite findall_skip by done. intros H.
    rewrite !substitute_skip by done. rewrite replace_skip; [by rewrite IH|].
    destruct (strip_prefix (literal e0) (String c (substitute tau s)))
      as [r|] eqn:E; [|done].
    apply (strip_prefix_literal_match e0 _ r He0) in E.
    by rewrite (match_here_substitute_skip tau c s Hc) in E.
  - rewrite findall_literal by done. intros [[Hopen Hval] H]%Forall_cons.
    rewrite !substitute_literal by done. unfold update_value at 1.
    destruct Hval as [Hlit|Hfree].
    + rewrite Hlit, String.eqb_refl, andb_true_r.
      destruct (String.eqb_spec e e0) as [->|Hne].
      * rewrite (replace_here _ _ _ (substitute tau r)); [|done|].
        -- by rewrite IH.
        -- apply strip_prefix_app.
      * rewrite replace_over_literal by done. by rewrite IH.
    + apply no_open_not_literal with (e := e) in Hfree as Hne.
      apply String.eqb_neq in Hne. rewrite Hne, andb_false_r.
      rewrite replace_over_no_open by done. by rewrite IH.
Qed.

(** *** The loop *)

Lemma plain_partial_value objects (seen : list string) (message : string) :
  plain_expressions message -> plain_values objects message ->
  Forall (fun e => no_char "{" e = true
                   /\ (partial_value objects seen e = literal e
                       \/ no_char "{" (partial_value objects seen e) = true))
         (findall message).
Proof.
  unfold plain_expressions, plain_values. rewrite !Forall_forall.
  intros Hexpr Hval e He. split; [by apply Hexpr|].
  unfold partial_value, value. case_bool_decide; [|by left].
  destruct (resolve objects e) as [v|] eqn:E; [|by left].
  right. by apply (Hval e He).
Qed.

Lemma update_partial_value objects (seen : list string) (e0 e : string) :
  update_value (partial_value objects seen) e0 (value objects e0) e
  = partial_value objects (e0 :: seen) e.
Proof.
  unfold update_value, partial_value.
  destruct (String.eqb_spec e e0) as [->|Hne].
  - rewrite (bool_decide_eq_true_2 (e0 ∈ e0 :: seen)) by (apply elem_of_cons; by left).
    case_bool_decide; [by destruct (_ && _)|].
    by rewrite String.eqb_refl.
  - cbn [andb]. rewrite (bool_decide_ext (e ∈ e0 :: seen) (e ∈ seen)); [done|].
    rewrite elem_of_cons. split; [by intros [?|?]|by right].
Qed.

Lemma replace_each_substitute objects (es seen : list string) (message : string) :
  plain_expressions message -> plain_values objects message ->
  Forall (fun e => placeholder_expr e = true) es ->
  replace_each objects es (substitute (partial_value objects seen) message)
  = substitute (partial_value objects (reverse es ++ seen)) message.
Proof.
  intros Hexpr Hval Hes. revert seen.
  induction Hes as [|e0 es He0 _ IH]; intros seen; [done|].
  unfold replace_each in *. cbn [fold_left]. rewrite reverse_cons.
  rewrite replace_substitute by by (try apply plain_partial_value).
  rewrite (substitute_ext _ (partial_value objects (e0 :: seen)))
    by (apply Forall_forall; intros; apply update_partial_value).
  rewrite IH. by rewrite <- app_assoc.
Qed.

Lemma replace_each_simultaneous objects (message : string) :
  plain_expressions message -> plain_values objects message ->
  replace_each objects (findall message) message
  = substitute_all (placeholder_table objects message) message.
Proof.
  intros Hexpr Hval.
  rewrite <- (substitute_identity message) at 2.
  rewrite (substitute_ext literal (partial_value objects []))
    by by apply Forall_forall.
  rewrite replace_each_substitute
    by (try done; apply findall_placeholder_expr).
  unfold placeholder_table.
  rewrite substitute_all_table by (try done; apply findall_placeholder_expr).
  apply substitute_ext, Forall_forall. intros e He.
  unfold partial_value. rewrite bool_decide_eq_true_2; [done|].
  rewrite app_nil_r. by apply elem_of_reverse.
Qed.

(** C1, as stated, fails: the replacements are made one after the other
    on the rewritten message, so a substituted value that contains a
    placeholder of the template is rewritten by a later replacement; so is
    an extracted expression that contains another placeholder. *)
Lemma substituted_value_rewritten :
  transform_message "{reason} ({moderator})" quoting_objects
  = Ok "Alice said so (Alice)"
  /\ substitute_all (placeholder_table quoting_objects "{reason} ({moderator})")
       "{reason} ({moderator})"
     = "{moderator} said so (Alice)"
  /\ transform_message "{x{user} {user}" kick_objects = Ok "{xBob Bob"
  /\ substitute_all (placeholder_table kick_objects "{x{user} {user}")
       "{x{user} {user}"
     = "{x{user} Bob"
  /\ ~ (forall message objects,
          transform_message message objects
          = Ok (substitute_all (placeholder_table objects message) message)).
Proof.
  do 4 (split; [reflexivity|]).
  intros H. specialize (H "{reason} ({moderator})" quoting_objects).
  vm_compute in H. discriminate H.
Qed.

(** C1, amended: when no extracted expression contains [{] and no string
    an extracted expression resolves to contains [{], rendering is the
    simultaneous substitution, in the template, of every occurrence of each
    extracted placeholder by its resolved-or-fallback string; identical
    placeholders receive the same string. *)
Theorem render_simultaneous (message : string) objects :
  plain_expressions message ->
  plain_values objects message ->
  transform_message message objects
  = Ok (substitute_all (placeholder_table objects message) message).
Proof.
  intros Hexpr Hval. rewrite transform_message_value. f_equal.
  by apply replace_each_simultaneous.
Qed.

Lemma render_simultaneous_witness :
  transform_message "{user} and {user}" kick_objects = Ok "Bob and Bob".
Proof.
  change (Ok "Bob and Bob")
    with (Ok (substitute_all (placeholder_table kick_objects "{user} and {user}")
                "{user} and {user}")).
  apply (render_simultaneous "{user} and {user}" kick_objects).
  - unfold plain_expressions. change (findall "{user} and {user}") with ["user"; "user"].
    repeat constructor.
  - unfold plain_values. change (findall "{user} and {user}") with ["user"; "user"].
    repeat constructor; by intros v [= <-].
Defined.

(** * User ids: [RawUserIdConverter]

    [ID_REGEX], [USER_MENTION_REGEX] and [RawUserIdConverter.convert],
    which turns the argument of the ban and unban commands into an [int]. *)

Module RawUserIdConverter.

(** The class [[0-9]]. *)
Definition is_digit (c : ascii) : bool :=
  (48 <=? nat_of_ascii c)%nat && (nat_of_ascii c <=? 57)%nat.

(** The greedy run [[0-9]{lo,hi}] at the head of [s]: as many digits as
    there are, [hi] at most, with what follows them; no match with fewer
    than [lo]. *)
Fixpoint take_digits (hi : nat) (s : string) : string * string :=
  match hi, s with
  | S hi', String c s' =>
      if is_digit c then let '(d, r) := take_digits hi' s' in (String c d, r)
      else ("", s)
  | _, _ => ("", s)
  end.

Definition digits (lo hi : nat) (s : string) : option (string * string) :=
  let '(d, r) := take_digits hi s in
  if (lo <=? String.length d)%nat then Some (d, r) else None.

(** [ID_REGEX.match(s)] for [ID_REGEX = ([0-9]{15,20})]: group 1 of a match
    at the start of [s], whatever follows the digits. *)
Definition ID_REGEX (s : string) : option string :=
  match digits 15 20 s with
  | Some (d, _) => Some d
  | None => None
  end.

(** [$]: the end of the text, or the newline that ends it. *)
Definition at_end (s : string) : bool :=
  match s with
  | "" => true
  | String c "" => Ascii.eqb c "010"
  | _ => false
  end.

(** [USER_MENTION_REGEX.match(s)] for
    [USER_MENTION_REGEX = <@!?([0-9]{15,21})>$]: group 1.  Giving back a
    taken [!] or taken digits cannot help: the digits would have to start
    at the [!], and the [>] would have to be a digit. *)
Definition USER_MENTION_REGEX (s : string) : option string :=
  match strip_prefix "<@" s with
  | Some s1 =>
      let s2 := match s1 with
                | String c r => if Ascii.eqb c "!" then r else s1
                | "" => s1
                end in
      match digits 15 21 s2 with
      | Some (d, String c r) =>
          if Ascii.eqb c ">" && at_end r then Some d else None
      | _ => None
      end
  | None => None
  end.

(** [int(d)] for a text of decimal digits. *)
Definition digit_value (c : ascii) : Z := Z.of_nat (nat_of_ascii c) - 48.

Fixpoint int_from (acc : Z) (d : string) : Z :=
  match d with
  | "" => acc
  | String c d' => int_from (10 * acc + digit_value c) d'
  end.

Definition int (d : string) : Z := int_from 0 d.

(** The result of [convert]: the returned [int], or the [BadArgument] it
    raises, with its message. *)
Inductive conversion : Type :=
| Return (n : Z)
| BadArgument (message : string).

(** [RawUserIdConverter.convert(ctx, argument)] *)
Definition convert (argument : string) : conversion :=
  let matched :=
    match ID_REGEX argument with
    | Some group1 => Some group1
    | None => USER_MENTION_REGEX argument
    end in
  match matched with
  | Some group1 => Return (int group1)
  | None => BadArgument ("'" ++ argument ++ "' doesn't look like a valid user ID.")
  end.

(** [all_digits d]: every character of [d] is a decimal digit. *)
Fixpoint all_digits (d : string) : bool :=
  match d with
  | "" => true
  | String c d' => is_digit c && all_digits d'
  end.

(** [digit_first s]: [s] starts with a digit. *)
Definition digit_first (s : string) : bool :=
  match s with
  | String c _ => is_digit c
  | "" => false
  end.

(** *** Digits *)

Lemma is_digit_value (c : ascii) :
  is_digit c = true -> (0 <= digit_value c <= 9)%Z.
Proof.
  unfold is_digit, digit_value.
  intros [H1%Nat.leb_le H2%Nat.leb_le]%andb_prop. lia.
Qed.

Lemma take_digits_spec (hi : nat) (s d r : string) :
  take_digits hi s = (d, r) ->
  s = d ++ r /\ all_digits d = true /\ String.length d <= hi
  /\ (String.length d = hi \/ digit_first r = false).
Proof.
  revert s d r; induction hi as [|hi IH]; intros s d r.
  - destruct s; intros [= <- <-]; simpl; auto.
  - destruct s as [|c s]; [intros [= <- <-]; simpl; auto with lia|].
    simpl. destruct (is_digit c) eqn:Hc.
    + destruct (take_digits hi s) as [d' r'] eqn:E. intros [= <- <-].
      destruct (IH _ _ _ E) as (-> & Hd & Hlen & Hmax).
      simpl. rewrite Hc, Hd. repeat split; [lia|]. destruct Hmax; auto.
    + intros [= <- <-]. simpl. rewrite Hc. auto with lia.
Qed.

Lemma take_digits_run (hi : nat) (d r : string) :
  all_digits d = true -> String.length d <= hi ->
  String.length d = hi \/ digit_first r = false ->
  take_digits hi (d ++ r) = (d, r).
Proof.
  revert d; induction hi as [|hi IH]; intros d Hd Hlen Hmax.
  - destruct d; [|simpl in Hlen; lia]. by destruct r.
  - destruct d as [|c d].
    + destruct Hmax as [|Hr]; [done|]. rewrite append_empty_l.
      destruct r as [|c r]; [done|]. simpl in *. by rewrite Hr.
    + simpl in Hd, Hlen. apply andb_prop in Hd as [Hc Hd].
      rewrite append_cons. simpl. rewrite Hc, IH; [done..|lia|].
      destruct Hmax; [left; simpl in *; lia|by right].
Qed.

Lemma int_from_bounds (acc : Z) (d : string) :
  all_digits d = true -> (0 <= acc)%Z ->
  (acc * 10 ^ Z.of_nat (String.length d) <= int_from acc d
   < (acc + 1) * 10 ^ Z.of_nat (String.length d))%Z.
Proof.
  revert acc; induction d as [|c d IH]; intros acc Hd Hacc.
  - simpl. lia.
  - simpl in Hd. apply andb_prop in Hd as [Hc%is_digit_value Hd].
    cbn [int_from String.length]. rewrite Nat2Z.inj_succ, Z.pow_succ_r by lia.
    specialize (IH (10 * acc + digit_value c)%Z Hd ltac:(lia)).
    assert (0 < 10 ^ Z.of_nat (String.length d))%Z by (apply Z.pow_pos_nonneg; lia).
    nia.
Qed.

Lemma int_bounds (d : string) :
  all_digits d = true -> (0 <= int d < 10 ^ Z.of_nat (String.length d))%Z.
Proof.
  intros Hd. pose proof (int_from_bounds 0 d Hd ltac:(lia)). unfold int. lia.
Qed.

Lemma digits_Some (lo hi : nat) (s d r : string) :
  digits lo hi s = Some (d, r) ->
  s = d ++ r /\ all_digits d = true /\ lo <= String.length d <= hi
  /\ (String.length d = hi \/ digit_first r = false).
Proof.
  unfold digits. destruct (take_digits hi s) as [d' r'] eqn:E.
  destruct (Nat.leb_spec lo (String.length d')); [|done]. intros [= <- <-].
  apply take_digits_spec in E as (? & ? & ? & ?). auto.
Qed.

Lemma digits_run (lo hi : nat) (d r : string) :
  all_digits d = true -> lo <= String.length d <= hi ->
  String.length d = hi \/ digit_first r = false ->
  digits lo hi (d ++ r) = Some (d, r).
Proof.
  intros Hd [Hlo Hhi] Hmax. unfold digits. rewrite take_digits_run by done.
  by destruct (Nat.leb_spec lo (String.length d)); [|lia].
Qed.

Lemma digits_short (lo hi : nat) (d r : string) :
  all_digits d = true -> String.length d < lo -> digit_first r = false ->
  digits lo hi (d ++ r) = None.
Proof.
  intros Hd Hlen Hr. destruct (digits lo hi (d ++ r)) as [[d' r']|] eqn:E; [|done].
  unfold digits in E. destruct (Nat.le_gt_cases (String.length d) hi).
  - rewrite take_digits_run in E by auto.
    by destruct (Nat.leb_spec lo (String.length d)); [lia|].
  - destruct (take_digits hi (d ++ r)) as [d'' r''] eqn:E'.
    apply take_digits_spec in E' as (_ & _ & Hle & _).
    destruct (Nat.leb_spec lo (String.length d'')); [lia|done].
Qed.

(** *** What [convert] accepts *)

(** X1: an argument that starts with a run of 15 to 20 digits is converted
    to the number the run spells, whatever follows it; of a longer run only
    the first 20 digits are read. *)
Theorem convert_id (d rest : string) :
  all_digits d = true ->
  15 <= String.length d <= 20 ->
  String.length d = 20 \/ digit_first rest = false ->
  convert (d ++ rest) = Return (int d).
Proof.
  intros Hd Hlen Hmax. unfold convert, ID_REGEX.
  by rewrite digits_run.
Qed.

Lemma convert_id_witness :
  convert "123456789012345678 spamming" = Return 123456789012345678
  /\ convert "1234567890123456789012345" = Return 12345678901234567890.
Proof.
  split.
  - apply (convert_id "123456789012345678" " spamming"); [done|simpl; lia|by right].
  - apply (convert_id "12345678901234567890" "12345"); [done|simpl; lia|by left].
Defined.

(** X2: a mention [<@digits>] or [<@!digits>] with 15 to 21 digits, alone
    or followed by one newline, is converted to the number the digits
    spell. *)
Theorem convert_mention (bang d tail : string) :
  bang = "" \/ bang = "!" ->
  all_digits d = true ->
  15 <= String.length d <= 21 ->
  tail = "" \/ tail = String "010" "" ->
  convert ("<@" ++ bang ++ d ++ ">" ++ tail) = Return (int d).
Proof.
  intros Hbang Hd Hlen Htail. unfold convert.
  assert (ID_REGEX ("<@" ++ bang ++ d ++ ">" ++ tail) = None) as -> by done.
  unfold USER_MENTION_REGEX.
  rewrite (strip_prefix_app "<@" (bang ++ d ++ ">" ++ tail)).
  assert (digits 15 21 (d ++ ">" ++ tail) = Some (d, String ">" tail)) as Hrun
    by (apply digits_run; auto).
  assert (at_end tail = true) as Hend by by destruct Htail as [-> | ->].
  destruct Hbang as [-> | ->].
  - rewrite append_empty_l. destruct d as [|c d]; [simpl in Hlen; lia|].
    rewrite append_cons in *. cbv iota.
    simpl in Hd. apply andb_prop in Hd as [Hc _].
    destruct (Ascii.eqb_spec c "!") as [->|]; [done|].
    rewrite Hrun. simpl. by rewrite Hend.
  - change ("!" ++ d ++ ">" ++ tail) with (String "!" (d ++ ">" ++ tail)).
    cbv iota. change (Ascii.eqb "!" "!") with true. cbv iota.
    rewrite Hrun. simpl. by rewrite Hend.
Qed.

Lemma convert_mention_witness :
  convert "<@!123456789012345678901>" = Return 123456789012345678901.
Proof.
  apply (convert_mention "!" "123456789012345678901" ""); auto.
  simpl; lia.
Defined.

Lemma mention_tail_inv (s2 message : string) (n : Z) :
  match
    match digits 15 21 s2 with
    | Some (d, String c r) =>
        if Ascii.eqb c ">" && at_end r then Some d else None
    | _ => None
    end
  with
  | Some group1 => Return (int group1)
  | None => BadArgument message
  end = Return n ->
  exists d tail,
    s2 = d ++ ">" ++ tail /\ all_digits d = true
    /\ 15 <= String.length d <= 21
    /\ (tail = "" \/ tail = String "010" "")
    /\ n = int d.
Proof.
  destruct (digits 15 21 s2) as [[d r]|] eqn:E; [|done].
  apply digits_Some in E as (-> & Hd & Hlen & _).
  destruct r as [|c r]; [done|].
  destruct (Ascii.eqb_spec c ">") as [->|]; [|done].
  destruct (at_end r) eqn:Hend; [|done]. intros [= <-].
  exists d, r. repeat split; try done; try lia.
  destruct r as [|c [|]]; [by left| |done]. right.
  simpl in Hend. by apply Ascii.eqb_eq in Hend as ->.
Qed.

(** X3: whatever [convert] returns comes from one of these two forms: the
    argument starts with a run of 15 to 20 digits, or it is a mention with
    15 to 21 digits; the result is the number the digits spell. *)
Theorem convert_return_inv (argument : string) (n : Z) :
  convert argument = Return n ->
  (exists d rest,
     argument = d ++ rest /\ all_digits d = true
     /\ 15 <= String.length d <= 20
     /\ (String.length d = 20 \/ digit_first rest = false)
     /\ n = int d)
  \/ (exists bang d tail,
       argument = "<@" ++ bang ++ d ++ ">" ++ tail
       /\ (bang = "" \/ bang = "!")
       /\ all_digits d = true
       /\ 15 <= String.length d <= 21
       /\ (tail = "" \/ tail = String "010" "")
       /\ n = int d).
Proof.
  unfold convert, ID_REGEX.
  destruct (digits 15 20 argument) as [[d rest]|] eqn:E.
  - intros [= <-]. left. apply digits_Some in E as (? & ? & ? & ?).
    by exists d, rest.
  - unfold USER_MENTION_REGEX.
    destruct (strip_prefix "<@" argument) as [s1|] eqn:E1; [|done].
    apply strip_prefix_Some in E1 as ->.
    intros H.
    destruct (mention_tail_inv
                match s1 with
                | String c r => if Ascii.eqb c "!" then r else s1
                | "" => s1
                end _ n H) as (d & tail & Hs2 & Hd & Hlen & Htail & ->).
    right. destruct s1 as [|c r].
    + exists "", d, tail. split; [by rewrite <- Hs2|auto].
    + destruct (Ascii.eqb_spec c "!") as [->|].
      * exists "!", d, tail. split; [by rewrite <- Hs2|auto].
      * exists "", d, tail. split; [by rewrite <- Hs2|auto].
Qed.

Lemma convert_return_inv_witness :
  exists d rest,
    "12345678901234567" = d ++ rest /\ all_digits d = true
    /\ 15 <= String.length d <= 20
    /\ (String.length d = 20 \/ digit_first rest = false)
    /\ 12345678901234567%Z = int d.
Proof.
  destruct (convert_return_inv "12345678901234567" 12345678901234567 eq_refl)
    as [H | (bang & d & tail & H & _)]; [exact H|].
  exfalso. by destruct bang.
Defined.

(** X4: a returned id is never negative and is below [10 ^ 21]; one read
    from a bare run of digits is below [10 ^ 20]. *)
Theorem convert_range (argument : string) (n : Z) :
  convert argument = Return n ->
  (0 <= n < 10 ^ 21)%Z
  /\ (digit_first argument = true -> (n < 10 ^ 20)%Z).
Proof.
  intros [(d & rest & -> & Hd & Hlen & _ & ->)
         |(bang & d & tail & -> & Hbang & Hd & Hlen & _ & ->)]%convert_return_inv.
  - pose proof (int_bounds d Hd) as [H0 H1].
    assert (10 ^ Z.of_nat (String.length d) <= 10 ^ 20)%Z
      by (apply Z.pow_le_mono_r; lia).
    lia.
  - pose proof (int_bounds d Hd) as [H0 H1].
    assert (10 ^ Z.of_nat (String.length d) <= 10 ^ 21)%Z
      by (apply Z.pow_le_mono_r; lia).
    split; [lia|]. by destruct Hbang as [-> | ->].
Qed.

Lemma convert_range_witness :
  (0 <= 123456789012345678901 < 10 ^ 21)%Z.
Proof.
  apply (convert_range "<@123456789012345678901>" 123456789012345678901 eq_refl).
Defined.

(** X5: an argument whose leading run of digits is shorter than 15, and
    which is no mention, is refused: [BadArgument] is raised and its message
    quotes the argument. *)
Theorem convert_short (d rest : string) :
  all_digits d = true ->
  String.length d < 15 ->
  digit_first rest = false ->
  strip_prefix "<@" (d ++ rest) = None ->
  convert (d ++ rest)
  = BadArgument ("'" ++ d ++ rest ++ "' doesn't look like a valid user ID.").
Proof.
  intros Hd Hlen Hrest Hmention. unfold convert, ID_REGEX, USER_MENTION_REGEX.
  rewrite digits_short, Hmention by done. by rewrite append_assoc.
Qed.

Lemma convert_short_witness :
  convert "123" = BadArgument "'123' doesn't look like a valid user ID."
  /\ convert "@Twentysix" = BadArgument "'@Twentysix' doesn't look like a valid user ID.".
Proof.
  split.
  - apply (convert_short "123" ""); [done|simpl; lia|done|done].
  - apply (convert_short "" "@Twentysix"); [done|simpl; lia|done|done].
Defined.

End RawUserIdConverter.

(** * More about the renderer *)

(** ** Private attributes do not influence the output *)

(** Two values that [str] and the public attributes cannot tell apart. *)
Definition same_public (o1 o2 : pyobj) : Prop :=
  str o1 = str o2
  /\ forall a, startswith a "_" = false ->
       str <$> attribute o1 a = str <$> attribute o2 a.

(** Two dictionaries with the same keys and, key by key, such values. *)
Definition public_equivalent (objects1 objects2 : gmap string pyobj) : Prop :=
  forall key, option_Forall2 same_public (objects1 !! key) (objects2 !! key).

Lemma public_equivalent_empty : public_equivalent ∅ ∅.
Proof. intros key. rewrite !lookup_empty. constructor. Qed.

Lemma public_equivalent_insert objects1 objects2 (key : string) (o1 o2 : pyobj) :
  same_public o1 o2 -> public_equivalent objects1 objects2 ->
  public_equivalent (<[key:=o1]> objects1) (<[key:=o2]> objects2).
Proof.
  intros Ho Hobjects k. destruct (decide (key = k)) as [->|Hne].
  - rewrite !lookup_insert_eq. by constructor.
  - rewrite !lookup_insert_ne by done. apply Hobjects.
Qed.

Lemma same_public_refl (o : pyobj) : same_public o o.
Proof. by split. Qed.

Lemma value_public_equivalent objects1 objects2 (expr : string) :
  public_equivalent objects1 objects2 ->
  value objects1 expr = value objects2 expr.
Proof.
  intros Heq. unfold value, resolve.
  destruct (Heq expr) as [o1 o2 [Hstr _]|]; [by rewrite Hstr|].
  destruct (split "." expr) as [|first [|second [|]]]; try done.
  destruct (startswith second "_") eqn:Hsecond; [done|].
  destruct (Heq first) as [o1 o2 [_ Hattr]|]; [|done].
  by rewrite (Hattr second Hsecond).
Qed.

(** X6: rendering does not depend on private attributes: two dictionaries
    with the same keys whose values have the same [str] and the same
    public attributes render every template to the same output. *)
Theorem private_attributes_ignored (message : string) objects1 objects2 :
  public_equivalent objects1 objects2 ->
  transform_message message objects1 = transform_message message objects2.
Proof.
  intros Heq. rewrite !transform_message_value. f_equal.
  apply replace_each_ext, Forall_forall. intros e _.
  by apply value_public_equivalent.
Qed.

(** The same member with another connection state. *)
Definition member_reconnected (name id : string) : pyobj :=
  PyObject name (fun a =>
    if String.eqb a "id" then Some (PyStr id)
    else if String.eqb a "_state" then Some (PyStr "<ConnectionState at 0x7f>")
    else None).

Lemma private_attributes_ignored_witness :
  transform_message "{user} ({user.id}, {user._state}) was kicked"
    (<["user" := member "Bob" "42"]> ∅)
  = transform_message "{user} ({user.id}, {user._state}) was kicked"
      (<["user" := member_reconnected "Bob" "42"]> ∅).
Proof.
  apply private_attributes_ignored.
  apply public_equivalent_insert; [|apply public_equivalent_empty].
  split; [done|]. intros a Ha. simpl.
  destruct (String.eqb a "id"); [done|].
  destruct (String.eqb_spec a "_state") as [->|]; done.
Defined.

(** ** Rendering twice *)

Lemma findall_over_no_open (w rest : string) :
  no_char "{" w = true -> findall (w ++ rest) = findall rest.
Proof.
  induction w as [|c w IH]; [done|]. intros [Hc Hw]%no_char_head.
  rewrite append_cons, findall_skip; [by apply IH|].
  simpl. by destruct (Ascii.eqb_spec c "{").
Qed.

Lemma findall_substitute (sigma : string -> string) (s : string) :
  Forall (fun e => sigma e = literal e \/ no_char "{" (sigma e) = true)
         (findall s) ->
  findall (substitute sigma s)
  = filter (fun e => sigma e = literal e) (findall s).
Proof.
  induction s as [| c s Hc IH | e r He IH] using scan_ind.
  - intros _. by rewrite substitute_empty, findall_empty.
  - rewrite (findall_skip c s) by done. intros H.
    rewrite substitute_skip by done.
    rewrite findall_skip by by apply match_here_substitute_skip. by apply IH.
  - rewrite (findall_literal e r) by done. intros [Hval H]%Forall_cons.
    rewrite substitute_literal by done. destruct Hval as [Hlit|Hopen].
    + rewrite Hlit, findall_literal by done.
      rewrite filter_cons_True by done. f_equal. by apply IH.
    + rewrite findall_over_no_open by done.
      rewrite filter_cons_False by by apply no_open_not_literal. by apply IH.
Qed.

Lemma replace_each_substitute_value objects (message : string) :
  plain_expressions message -> plain_values objects message ->
  replace_each objects (findall message) message
  = substitute (value objects) message.
Proof.
  intros Hexpr Hval. rewrite replace_each_simultaneous by done.
  apply substitute_all_table; [apply findall_placeholder_expr|done].
Qed.

(** X7: when no extracted expression and no string an expression resolves
    to contains [{], rendering is idempotent: rendering the output again
    gives the output. *)
Theorem render_twice (message out : string) objects :
  plain_expressions message ->
  plain_values objects message ->
  transform_message message objects = Ok out ->
  transform_message out objects = Ok out.
Proof.
  intros Hexpr Hval. rewrite !transform_message_value. intros [= <-]. f_equal.
  rewrite (replace_each_substitute_value objects message) by done.
  apply replace_each_fallback. rewrite findall_substitute.
  - apply Forall_forall. by intros e [He _]%list_elem_of_filter.
  - eapply Forall_impl; [exact Hval|]. intros e He. unfold value.
    simpl in He. destruct (resolve objects e) as [v|] eqn:E; [|by left].
    right. by apply He.
Qed.

Lemma render_twice_witness :
  transform_message "Bob ({user.nickname}) was kicked for spam" kick_objects
  = Ok "Bob ({user.nickname}) was kicked for spam".
Proof.
  apply (render_twice "{user} ({user.nickname}) was kicked for {reason}"
           "Bob ({user.nickname}) was kicked for spam" kick_objects).
  - unfold plain_expressions.
    change (findall "{user} ({user.nickname}) was kicked for {reason}")
      with ["user"; "user.nickname"; "reason"].
    repeat constructor.
  - unfold plain_values.
    change (findall "{user} ({user.nickname}) was kicked for {reason}")
      with ["user"; "user.nickname"; "reason"].
    repeat constructor; intros v [= <-]; reflexivity.
  - reflexivity.
Defined.

(** ** What the scan extracts *)

Lemma length_append (s t : string) :
  String.length (s ++ t) = String.length s + String.length t.
Proof. induction s as [|c s IH]; [done|]. rewrite append_cons. simpl. by rewrite IH. Qed.

(** X8: every extracted expression is non-empty and free of [}], and the
    placeholders do not overlap: the lengths of the extracted expressions,
    with two braces each, add up to at most the length of the template. *)
Theorem findall_bounds (message : string) :
  Forall (fun e => e <> "" /\ no_char "}" e = true) (findall message)
  /\ list_sum (map (fun e => String.length e + 2) (findall message))
     <= String.length message.
Proof.
  induction message as [| c s Hc [IH1 IH2] | e r He [IH1 IH2]] using scan_ind.
  - rewrite findall_empty. split; [constructor|done].
  - rewrite findall_skip by done. split; [done|]. simpl. lia.
  - rewrite findall_literal by done. split.
    + constructor; [|done].
      by apply placeholder_expr_cons in He as (a & e' & -> & He).
    + rewrite literal_app. simpl. rewrite length_append. simpl. lia.
Qed.

(** * The moderation commands

    [kick], [tempban], [softban], [ban_user] and [unban] call into discord
    and the bot framework at every step.  A run of a command is modelled by
    the effects it has on the outside, in order, and by how it ends; what
    the outside answers (the outcome of a request, a configuration value)
    is read from a [World].  A [str.format] on a constant template is
    written as the concatenation it computes.  [ctx.send], the calls of
    [log], [modlog.create_case] and the writes to the configuration are
    taken to succeed; the requests to discord that the commands guard with
    [try] or [suppress] can raise. *)

From Stdlib Require DecimalString.

Module Commands.

(** ** Discord objects *)

(** A [discord.Member] or [discord.User]: its [id], its [name], and the
    object itself, as the templates see it. *)
Record Member : Type := {
  member_id : Z;
  member_name : string;
  member_object : pyobj;
}.

(** A [discord.Guild]: its [name], the id of its [owner] when there is
    one, and the object itself. *)
Record Guild : Type := {
  guild_name : string;
  guild_owner : option Z;
  guild_object : pyobj;
}.

(** What the commands read of [ctx]. *)
Record Context : Type := {
  author : Member;
  guild : Guild;
  created_at : Z;
}.

(** A [timedelta]: its [total_seconds()], and the object itself. *)
Record Timedelta : Type := {
  total_seconds : Z;
  timedelta_value : pyobj;
}.

(** The user of [ban_user]: [Union[discord.Member, discord.User,
    discord.Object]]; a [discord.Object] has an id and no name. *)
Inductive Target : Type :=
| a_Member (m : Member)
| a_User (u : Member)
| an_Object (id : Z) (object : pyobj).

Definition target_id (user : Target) : Z :=
  match user with
  | a_Member m | a_User m => member_id m
  | an_Object id _ => id
  end.

Definition target_object (user : Target) : pyobj :=
  match user with
  | a_Member m | a_User m => member_object m
  | an_Object _ o => o
  end.

(** [a == b] on users and members compares the ids. *)
Definition same_user (a b : Member) : bool := Z.eqb (member_id a) (member_id b).

(** [member == guild.owner] *)
Definition is_owner (g : Guild) (m : Member) : bool :=
  match guild_owner g with
  | Some owner => Z.eqb (member_id m) owner
  | None => false
  end.

(** [str(n)] for an [int]. *)
Definition str_int (n : Z) : string :=
  DecimalString.NilZero.string_of_int (Z.to_int n).

(** ** Exceptions and effects *)

(** [discord.Forbidden] and [discord.NotFound] are [discord.HTTPException]s;
    [HTTPException] stands for the other ones, [OtherException] for an
    exception of another class. *)
Inductive failure : Type :=
| Forbidden
| NotFound
| HTTPException
| AttributeError
| OtherException.

Definition is_HTTPException (f : failure) : bool :=
  match f with
  | Forbidden | NotFound | HTTPException => true
  | AttributeError | OtherException => false
  end.

(** What a command does to the outside; users are named by their ids. *)
Inductive effect : Type :=
| ctx_send (content : string)
| send_embed (to : Z) (title : string) (color : Z)
    (field_name field_value : string) (inline : bool)
| send_message (to : Z) (content : string)
| delete_message (to : Z)
| guild_kick (member : Z) (reason : string)
| guild_ban (user : Z) (reason : string) (delete_message_days : Z)
| guild_unban (user : Z) (reason : option string)
| create_case (created : Z) (action_type : string) (user moderator : Z)
    (reason : option string) (until : option Z)
| log_info (line : string)
| log_exception (line : string)
| set_banned_until (member : Z) (timestamp : Z)
| set_current_tempbans (ids : list Z).

(** A run: the effects that took place, and the value returned or the
    exception raised. *)
Record run (A : Type) : Type := Run {
  effects : list effect;
  result : A + failure;
}.
Arguments Run {A} effects result.
Arguments effects {A} r.
Arguments result {A} r.

Definition pure {A : Type} (a : A) : run A := Run [] (inl a).

Definition raise {A : Type} (f : failure) : run A := Run [] (inr f).

Definition bind {A B : Type} (m : run A) (k : A -> run B) : run B :=
  match result m with
  | inl a => Run (effects m ++ effects (k a)) (result (k a))
  | inr f => Run (effects m) (inr f)
  end.

#[global] Instance run_ret : MRet run := @pure.
#[global] Instance run_bind : MBind run := fun A B k m => bind m k.

(** An effect that takes place. *)
Definition perform (e : effect) : run unit := Run [e] (inl tt).

(** An awaited request: it takes effect, or raises. *)
Definition request (outcome : option failure) (e : effect) : run unit :=
  match outcome with
  | None => perform e
  | Some f => raise f
  end.

(** [try: body except ...: handler]; [handler f = None] when no clause
    catches [f]. *)
Definition try_except {A : Type} (body : run A)
    (handler : failure -> option (run A)) : run A :=
  match result body with
  | inl a => body
  | inr f =>
      match handler f with
      | Some h => Run (effects body ++ effects h) (result h)
      | None => body
      end
  end.

(** [try: body except ...: handler else: orelse]: the [else] block runs
    after a [body] that raised nothing, outside the [try]. *)
Definition try_except_else {A B : Type} (body : run A)
    (handler : failure -> option (run B)) (orelse : A -> run B) : run B :=
  match result body with
  | inl a => Run (effects body ++ effects (orelse a)) (result (orelse a))
  | inr f =>
      match handler f with
      | Some h => Run (effects body ++ effects h) (result h)
      | None => Run (effects body) (inr f)
      end
  end.

(** [with contextlib.suppress(discord.HTTPException): body] *)
Definition suppress_HTTPException (body : run unit) : run unit :=
  try_except body (fun f => if is_HTTPException f then Some (pure tt) else None).

(** [transform_message] inside a command. *)
Definition rendered (message : string) (objects : gmap string pyobj) : run string :=
  match transform_message message objects with
  | Ok text => pure text
  | Raise _ => raise OtherException
  end.

(** ** The outside *)

Record World : Type := {
  (** [await is_allowed_by_hierarchy(self.bot, self.config, guild, author, member)] *)
  is_allowed_by_hierarchy : Member -> Member -> bool;
  (** [guild.me.top_role <= member.top_role] *)
  top_role_le : Member -> bool;
  (** [get_audit_reason(author, reason, shorten=True)] *)
  get_audit_reason : Member -> option string -> string;
  (** [bold(text)] *)
  bold : string -> string;
  (** [await self.bot.get_embed_color(member)] *)
  get_embed_color : Z -> Z;
  (** [getattr] on a [str], on an [int] and on [None] *)
  str_attributes : string -> string -> option pyobj;
  int_attributes : Z -> string -> option pyobj;
  None_attributes : string -> option pyobj;
  (** [self.config.guild(guild)]: [dm_on_kickban], [current_tempbans] *)
  dm_on_kickban : bool;
  current_tempbans : list Z;
  (** [self._config.guild(guild)]: the four templates *)
  kick_message : string;
  ban_message : string;
  tempban_message : string;
  unban_message : string;
  (** the outcome of [member.send(...)], by recipient *)
  send_outcome : Z -> option failure;
  (** the outcomes of [guild.kick], [guild.ban], [guild.unban] *)
  kick_outcome : option failure;
  ban_outcome : option failure;
  unban_outcome : option failure;
  (** [await guild.fetch_ban(user)]: the banned user, or the exception *)
  fetch_ban : Z -> Member + failure;
  (** [self.config.guild(guild)]: [default_tempban_duration] in seconds,
      [default_days] *)
  default_tempban_duration : Z;
  default_days : Z;
  (** [timedelta(seconds=n)] as a value *)
  timedelta_object : Z -> pyobj;
  (** the time of [datetime.now(...)], as a timestamp, and
      [discord.utils.format_dt] *)
  now : Z;
  format_dt : Z -> string;
  (** [await self.get_invite_for_reinvite(ctx, max_age)], by the [max_age]
      given, if any: the link, or [None] *)
  get_invite_for_reinvite : option Z -> option string;
  (** [ctx.bot.get_user(user_id)] *)
  get_user : Z -> option Member;
}.

(** ** The dictionaries *)

(** [reason] as a value: a [str], or [None] when no reason was given. *)
Definition reason_object (w : World) (reason : option string) : pyobj :=
  match reason with
  | Some text => PyObject text (str_attributes w text)
  | None => PyObject "None" (None_attributes w)
  end.

(** An [int] as a value. *)
Definition int_object (w : World) (n : Z) : pyobj :=
  PyObject (str_int n) (int_attributes w n).

(** [objects] of [kick], [softban] and [unban]. *)
Definition kick_dictionary (user moderator reason guild : pyobj)
  : gmap string pyobj :=
  <["user" := user]> (<["moderator" := moderator]>
  (<["reason" := reason]> (<["guild" := guild]> ∅))).

(** [objects] of [ban_user]. *)
Definition ban_dictionary (user moderator reason guild days : pyobj)
  : gmap string pyobj :=
  <["user" := user]> (<["moderator" := moderator]>
  (<["reason" := reason]> (<["guild" := guild]> (<["days" := days]> ∅)))).

(** [objects] of [tempban]. *)
Definition tempban_dictionary (user moderator reason guild duration days : pyobj)
  : gmap string pyobj :=
  <["user" := user]> (<["moderator" := moderator]>
  (<["reason" := reason]> (<["guild" := guild]>
  (<["duration" := duration]> (<["days" := days]> ∅))))).

(** ** [kick] *)

Definition self_harm : string :=
  "I cannot let you do that. Self-harm is bad 😔".

Definition not_higher : string :=
  "I cannot let you do that. You are not higher than the user in the role hierarchy.".

Definition hierarchy_rules : string :=
  "I cannot do that due to Discord hierarchy rules.".

(** [reason if reason is not None else "No reason was given."] *)
Definition reason_or_default (reason : option string) : string :=
  match reason with
  | Some text => text
  | None => "No reason was given."
  end.

(** [Mod.kick(ctx, member, reason=reason)] *)
Definition kick (w : World) (ctx : Context) (member : Member)
    (reason : option string) : run unit :=
  let author := author ctx in
  let guild := guild ctx in
  if same_user author member then
    perform (ctx_send self_harm)
  else if negb (is_allowed_by_hierarchy w author member) then
    perform (ctx_send not_higher)
  else if top_role_le w member || is_owner guild member then
    perform (ctx_send hierarchy_rules)
  else
    let audit_reason := get_audit_reason w author reason in
    let toggle := dm_on_kickban w in
    (if toggle then
       suppress_HTTPException
         (request (send_outcome w (member_id member))
            (send_embed (member_id member)
               (bold w ("You have been kicked from " ++ str (guild_object guild) ++ "."))
               (get_embed_color w (member_id member))
               "**Reason**" (reason_or_default reason) false))
     else pure tt);;
    try_except_else
      (request (kick_outcome w) (guild_kick (member_id member) audit_reason);;
       perform (log_info
         (member_name author ++ "(" ++ str_int (member_id author) ++ ") kicked "
          ++ member_name member ++ "(" ++ str_int (member_id member) ++ ")")))
      (fun f =>
         match f with
         | Forbidden => Some (perform (ctx_send "I'm not allowed to do that."))
         | _ =>
             Some (perform (log_exception
               (member_name author ++ "(" ++ str_int (member_id author)
                ++ ") attempted to kick "
                ++ member_name member ++ "(" ++ str_int (member_id member)
                ++ "), but an error occurred.")))
         end)
      (fun _ =>
         perform (create_case (created_at ctx) "kick" (member_id member)
                    (member_id author) reason None);;
         let message := kick_message w in
         let objects :=
           kick_dictionary (member_object member) (member_object author)
             (reason_object w reason) (guild_object guild) in
         message ← rendered message objects;
         perform (ctx_send message)).

(** ** [ban_user] *)

(** [user.name if hasattr(user, "name") else "Unknown"] *)
Definition username (user : Target) : string :=
  match user with
  | a_Member m | a_User m => member_name m
  | an_Object _ _ => "Unknown"
  end.

(** [ids.remove(id)]: the first occurrence goes. *)
Fixpoint remove_first (id : Z) (ids : list Z) : list Z :=
  match ids with
  | [] => []
  | x :: ids' => if Z.eqb x id then ids' else x :: remove_first id ids'
  end.

(** [id in ids] *)
Definition id_in (id : Z) (ids : list Z) : bool := existsb (Z.eqb id) ids.

(** The first part of [ban_user], up to [ban_type]: [inl] is a [return],
    [inr] carries [removed_temp] and [ban_type]. *)
Definition ban_user_checks (w : World) (ctx : Context) (user : Target)
    (reason : option string) : run (bool * string + bool * string) :=
  let author := author ctx in
  let guild := guild ctx in
  match user with
  | a_Member member =>
      if same_user author member then
        pure (inl (false, self_harm))
      else if negb (is_allowed_by_hierarchy w author member) then
        pure (inl (false, not_higher))
      else if top_role_le w member || is_owner guild member then
        pure (inl (false, hierarchy_rules))
      else
        let toggle := dm_on_kickban w in
        (if toggle then
           suppress_HTTPException
             (request (send_outcome w (member_id member))
                (send_embed (member_id member)
                   (bold w ("You have been banned from "
                            ++ str (guild_object guild) ++ "."))
                   (get_embed_color w (member_id member))
                   "**Reason**" (reason_or_default reason) false))
         else pure tt);;
        pure (inr (false, "ban"))
  | _ =>
      let tempbans := current_tempbans w in
      match fetch_ban w (target_id user) with
      | inr NotFound => pure (inr (false, "hackban"))
      | inr f => raise f
      | inl _ =>
          if id_in (target_id user) tempbans then
            perform (set_current_tempbans (remove_first (target_id user) tempbans));;
            pure (inr (true, "hackban"))
          else
            pure (inl (false, "User with ID " ++ str_int (target_id user)
                              ++ " is already banned."))
      end
  end.

(** [Mod.ban_user(user, ctx, days, reason, create_modlog_case)] *)
Definition ban_user (w : World) (user : Target) (ctx : Context) (days : Z)
    (reason : option string) (create_modlog_case : bool) : run (bool * string) :=
  let author := author ctx in
  let guild := guild ctx in
  if negb ((0 <=? days)%Z && (days <=? 7)%Z) then
    pure (false, "Invalid days. Must be between 0 and 7.")
  else
    checked ← ban_user_checks w ctx user reason;
    match checked : bool * string + bool * string with
    | inl returned => pure returned
    | inr (removed_temp, ban_type) =>
        let audit_reason := get_audit_reason w author reason in
        banned ←
          (if removed_temp then
             perform (log_info
               (member_name author ++ "(" ++ str_int (member_id author)
                ++ ") upgraded the tempban for " ++ str_int (target_id user)
                ++ " to a permaban."));;
             pure (inr ("User with ID " ++ str_int (target_id user)
                        ++ " was upgraded from a temporary to a permanent ban."))
           else
             let username := username user in
             try_except
               (request (ban_outcome w)
                  (guild_ban (target_id user) audit_reason days);;
                perform (log_info
                  (member_name author ++ "(" ++ str_int (member_id author) ++ ") "
                   ++ ban_type ++ "ned " ++ username ++ "("
                   ++ str_int (target_id user) ++ "), deleting " ++ str_int days
                   ++ " days worth of messages."));;
                let message := ban_message w in
                let objects :=
                  ban_dictionary (target_object user) (member_object author)
                    (reason_object w reason) (guild_object guild)
                    (int_object w days) in
                success_message ← rendered message objects;
                pure (inr success_message))
               (fun f =>
                  match f with
                  | Forbidden => Some (pure (inl (false, "I'm not allowed to do that.")))
                  | NotFound =>
                      Some (pure (inl (false, "User with ID " ++ str_int (target_id user)
                                              ++ " not found")))
                  | _ =>
                      Some (perform (log_exception
                              (member_name author ++ "(" ++ str_int (member_id author)
                               ++ ") attempted to " ++ ban_type ++ " " ++ username
                               ++ "(" ++ str_int (target_id user)
                               ++ "), but an error occurred."));;
                            pure (inl (false, "An unexpected error occurred.")))
                  end));
        match banned : bool * string + string with
        | inl returned => pure returned
        | inr success_message =>
            (if create_modlog_case then
               perform (create_case (created_at ctx) ban_type (target_id user)
                          (member_id author) reason None)
             else pure tt);;
            pure (true, success_message)
        end
    end.

(** ** [tempban] *)

(** A line feed. *)
Definition nl : string := String "010" "".

(** An invite in a [format], and as a condition. *)
Definition invite_text (invite : option string) : string :=
  match invite with
  | Some link => link
  | None => "None"
  end.

Definition invite_given (invite : option string) : bool :=
  match invite with
  | Some link => negb (String.eqb link "")
  | None => false
  end.

(** [reason] as a condition. *)
Definition reason_given (reason : option string) : bool :=
  match reason with
  | Some text => negb (String.eqb text "")
  | None => false
  end.

(** [datetime.timezone]: [datetime] is the class imported by
    [from datetime import datetime, timedelta], which has no attribute
    [timezone]; the lookup raises [AttributeError]. *)
Definition datetime_timezone : run unit := raise AttributeError.

(** [Mod.tempban(ctx, member, duration, days, reason=reason)] *)
Definition tempban (w : World) (ctx : Context) (member : Member)
    (duration : option Timedelta) (days : option Z) (reason : option string)
  : run unit :=
  let guild := guild ctx in
  let author := author ctx in
  if same_user author member then
    perform (ctx_send self_harm)
  else if negb (is_allowed_by_hierarchy w author member) then
    perform (ctx_send not_higher)
  else if top_role_le w member || is_owner guild member then
    perform (ctx_send hierarchy_rules)
  else
    let duration :=
      match duration with
      | Some d => d
      | None =>
          {| total_seconds := default_tempban_duration w;
             timedelta_value := timedelta_object w (default_tempban_duration w) |}
      end in
    datetime_timezone;;
    let unban_time := (now w + total_seconds duration)%Z in
    let days :=
      match days with
      | Some d => d
      | None => default_days w
      end in
    if negb ((0 <=? days)%Z && (days <=? 7)%Z) then
      perform (ctx_send "Invalid days. Must be between 0 and 7.")
    else
      let invite :=
        get_invite_for_reinvite w (Some (total_seconds duration + 86400)%Z) in
      perform (set_banned_until (member_id member) unban_time);;
      perform (set_current_tempbans (current_tempbans w ++ [member_id member]));;
      suppress_HTTPException
        (let msg :=
           "You have been temporarily banned from " ++ guild_name guild
           ++ " until " ++ format_dt w unban_time ++ "." in
         let msg :=
           if dm_on_kickban w && reason_given reason
           then msg ++ nl ++ nl ++ "**Reason:** " ++ reason_or_default reason
           else msg in
         let msg :=
           if invite_given invite
           then msg ++ nl ++ nl
                ++ "Here is an invite for when your ban expires: "
                ++ invite_text invite
           else msg in
         request (send_outcome w (member_id member))
           (send_message (member_id member) msg));;
      let audit_reason := get_audit_reason w author reason in
      try_except_else
        (request (ban_outcome w) (guild_ban (member_id member) audit_reason days))
        (fun f =>
           match f with
           | Forbidden => Some (perform (ctx_send "I can't do that for some reason."))
           | NotFound | HTTPException =>
               Some (perform (ctx_send "Something went wrong while banning."))
           | _ => None
           end)
        (fun _ =>
           perform (create_case (created_at ctx) "tempban" (member_id member)
                      (member_id author) reason (Some unban_time));;
           let message := tempban_message w in
           let objects :=
             tempban_dictionary (member_object member) (member_object author)
               (reason_object w reason) (guild_object guild)
               (timedelta_value duration) (int_object w days) in
           message ← rendered message objects;
           perform (ctx_send message)).

(** ** [softban] *)

(** [Mod.softban(ctx, member, reason=reason)] *)
Definition softban (w : World) (ctx : Context) (member : Member)
    (reason : option string) : run unit :=
  let guild := guild ctx in
  let author := author ctx in
  if same_user author member then
    perform (ctx_send self_harm)
  else if negb (is_allowed_by_hierarchy w author member) then
    perform (ctx_send not_higher)
  else
    let audit_reason := get_audit_reason w author reason in
    let invite := get_invite_for_reinvite w None in
    msg ← try_except
      (request (send_outcome w (member_id member))
         (send_message (member_id member)
            ("You have been banned and then unbanned as a quick way to delete your messages."
             ++ nl ++ "You can now join the server again. " ++ invite_text invite));;
       pure true)
      (fun f => if is_HTTPException f then Some (pure false) else None);
    banned ← try_except
      (request (ban_outcome w) (guild_ban (member_id member) audit_reason 1);;
       pure true)
      (fun f =>
         match f with
         | Forbidden =>
             Some (perform (ctx_send "My role is not high enough to softban that user.");;
                   (if msg : bool then perform (delete_message (member_id member))
                    else pure tt);;
                   pure false)
         | NotFound | HTTPException =>
             Some (perform (log_exception
                     (member_name author ++ "(" ++ str_int (member_id author)
                      ++ ") attempted to softban "
                      ++ member_name member ++ "(" ++ str_int (member_id member)
                      ++ "), but an error occurred trying to ban them."));;
                   pure false)
         | _ => None
         end);
    if banned : bool then
      try_except_else
        (request (unban_outcome w) (guild_unban (member_id member) None))
        (fun f =>
           if is_HTTPException f then
             Some (perform (log_exception
                     (member_name author ++ "(" ++ str_int (member_id author)
                      ++ ") attempted to softban "
                      ++ member_name member ++ "(" ++ str_int (member_id member)
                      ++ "), but an error occurred trying to unban them.")))
           else None)
        (fun _ =>
           perform (log_info
             (member_name author ++ "(" ++ str_int (member_id author)
              ++ ") softbanned "
              ++ member_name member ++ "(" ++ str_int (member_id member)
              ++ "), deleting 1 day worth of messages."));;
           perform (create_case (created_at ctx) "softban" (member_id member)
                      (member_id author) reason None);;
           let message := kick_message w in
           let objects :=
             kick_dictionary (member_object member) (member_object author)
               (reason_object w reason) (guild_object guild) in
           message ← rendered message objects;
           perform (ctx_send message))
    else pure tt.

(** ** [unban] *)

(** [await self._config.guild(guild).reinvite_on_unban()]: [self._config]
    is the configuration that [__init__] creates for the cog, with
    [force_registration=True], and in which it registers the four templates
    and nothing else; [reinvite_on_unban] is a setting of the other
    configuration, [self.config].  Asking a group of a configuration with
    forced registration for a name that is not registered raises
    [AttributeError]. *)
Definition reinvite_on_unban : run bool := raise AttributeError.

(** The last part of [unban], from the read of the setting on. *)
Definition unban_reinvite (w : World) (ctx : Context) (user_id : Z) : run unit :=
  reinvite ← reinvite_on_unban;
  if reinvite : bool then
    match get_user w user_id with
    | None =>
        perform (ctx_send
          "I don't share another server with this user. I can't reinvite them.")
    | Some user =>
        let invite := get_invite_for_reinvite w None in
        if invite_given invite then
          try_except
            (request (send_outcome w (member_id user))
               (send_message (member_id user)
                  ("You've been unbanned from " ++ guild_name (guild ctx) ++ "."
                   ++ nl ++ "Here is an invite for that server: "
                   ++ invite_text invite)))
            (fun f =>
               match f with
               | Forbidden =>
                   Some (perform (ctx_send
                     ("I failed to send an invite to that user. Perhaps you may be able to send it for me?"
                      ++ nl ++ "Here's the invite link: " ++ invite_text invite)))
               | NotFound | HTTPException =>
                   Some (perform (ctx_send
                     ("Something went wrong when attempting to send that user an invite. Here's the link so you can try: "
                      ++ invite_text invite)))
               | _ => None
               end)
        else pure tt
    end
  else pure tt.

(** [Mod.unban(ctx, user_id, reason=reason)] *)
Definition unban (w : World) (ctx : Context) (user_id : Z)
    (reason : option string) : run unit :=
  let guild := guild ctx in
  let author := author ctx in
  let audit_reason := get_audit_reason w author reason in
  match fetch_ban w user_id with
  | inr NotFound => perform (ctx_send "It seems that user isn't banned!")
  | inr f => raise f
  | inl ban_entry_user =>
      unbanned ← try_except_else
        (request (unban_outcome w)
           (guild_unban (member_id ban_entry_user) (Some audit_reason)))
        (fun f =>
           if is_HTTPException f then
             Some (perform (ctx_send
                     "Something went wrong while attempting to unban that user.");;
                   pure false)
           else None)
        (fun _ =>
           perform (create_case (created_at ctx) "unban" (member_id ban_entry_user)
                      (member_id author) reason None);;
           let message := unban_message w in
           let objects :=
             kick_dictionary (member_object ban_entry_user) (member_object author)
               (reason_object w reason) (guild_object guild) in
           message ← rendered message objects;
           perform (ctx_send message);;
           pure true);
      if unbanned : bool then unban_reinvite w ctx user_id else pure tt
  end.

(** ** What the runs show *)

(** The texts sent to the channel, in order. *)
Definition replies {A : Type} (r : run A) : list string :=
  omap (fun e => match e with ctx_send content => Some content | _ => None end)
       (effects r).

(** The three refusals of the checks. *)
Definition refusals : list string := [self_harm; not_higher; hierarchy_rules].

(** The checks of [kick], [tempban] and [ban_user] on a member. *)
Definition checks_pass (w : World) (ctx : Context) (member : Member) : bool :=
  negb (same_user (author ctx) member)
  && is_allowed_by_hierarchy w (author ctx) member
  && negb (top_role_le w member)
  && negb (is_owner (guild ctx) member).

Lemma rendered_value (message : string) objects :
  rendered message objects = pure (replace_each objects (findall message) message).
Proof. unfold rendered. by rewrite transform_message_value. Qed.

(** *** The dictionaries *)

(** X9: the dictionaries that [kick], [softban], [unban], [ban_user] and
    [tempban] pass to [transform_message] are binding contexts, whatever the
    values: every key is a bare name. *)
Theorem dictionaries_binding_contexts
    (user moderator reason guild duration days : pyobj) :
  binding_context (kick_dictionary user moderator reason guild)
  /\ binding_context (ban_dictionary user moderator reason guild days)
  /\ binding_context
       (tempban_dictionary user moderator reason guild duration days).
Proof.
  unfold kick_dictionary, ban_dictionary, tempban_dictionary.
  repeat split;
    repeat (apply binding_context_insert; [reflexivity|]);
    apply binding_context_empty.
Qed.

(** *** Examples *)

Definition alice : Member :=
  {| member_id := 7; member_name := "Alice"; member_object := member "Alice" "7" |}.

Definition bob : Member :=
  {| member_id := 42; member_name := "Bob"; member_object := member "Bob" "42" |}.

Definition test_server : Guild :=
  {| guild_name := "TestServer"; guild_owner := Some 1%Z;
     guild_object := PyStr "TestServer" |}.

Definition alice_in_test_server : Context :=
  {| author := alice; guild := test_server; created_at := 1700000000 |}.

(** A world in which every check passes; the outcomes of the requests, the
    answers of [fetch_ban] and the list of tempbans are left open. *)
Definition example_world (dm kicked banned unbanned : option failure)
    (fetched : Z -> Member + failure) (tempbans : list Z) : World :=
  {| is_allowed_by_hierarchy := fun _ _ => true;
     top_role_le := fun _ => false;
     get_audit_reason := fun moderator reason =>
       "Action requested by " ++ member_name moderator ++ ". Reason: "
       ++ reason_or_default reason;
     bold := fun text => "**" ++ text ++ "**";
     get_embed_color := fun _ => 0%Z;
     str_attributes := fun _ _ => None;
     int_attributes := fun _ _ => None;
     None_attributes := fun _ => None;
     dm_on_kickban := true;
     current_tempbans := tempbans;
     kick_message := "{user} was kicked by {moderator}: {reason}";
     ban_message := "{user} was banned, {days} days of messages deleted";
     tempban_message := "Done. Enough chaos for now.";
     unban_message := "Unbanned that user from this server.";
     send_outcome := fun _ => dm;
     kick_outcome := kicked;
     ban_outcome := banned;
     unban_outcome := unbanned;
     fetch_ban := fetched;
     default_tempban_duration := 86400;
     default_days := 0;
     timedelta_object := fun _ => PyStr "1 day, 0:00:00";
     now := 1700000000;
     format_dt := fun _ => "<t:1700086400>";
     get_invite_for_reinvite := fun _ => Some "https://discord.gg/invite";
     get_user := fun _ => Some bob |}.

(** No ban is known. *)
Definition nobody_banned : Z -> Member + failure := fun _ => inr NotFound.

(** *** [kick] *)

(** Membership in a list of effects that is known. *)
Ltac in_effects H :=
  repeat (apply elem_of_cons in H as [H|H]);
  try (by apply elem_of_nil in H); simplify_eq.

(** Membership in a list that is given. *)
Ltac listed :=
  repeat first [ apply list_elem_of_here | apply list_elem_of_further ].

(** A branch in which the effect looked for does not occur. *)
Ltac absent :=
  simpl; intros; try intro;
  match goal with H : _ ∈ _ |- _ => in_effects H end; done.

(** X10: a member is kicked only after every check has passed: the author
    is not the member, the hierarchy allows it, the bot's top role is above
    the member's and the member does not own the guild; the request
    carries the member's id and the audit reason. *)
Theorem kick_guarded (w : World) (ctx : Context) (member : Member)
    (reason : option string) (id : Z) (audit : string) :
  guild_kick id audit ∈ effects (kick w ctx member reason) ->
  checks_pass w ctx member = true
  /\ kick_outcome w = None
  /\ id = member_id member
  /\ audit = get_audit_reason w (author ctx) reason.
Proof.
  unfold kick, checks_pass. rewrite rendered_value.
  destruct (same_user (author ctx) member); [absent|].
  destruct (is_allowed_by_hierarchy w (author ctx) member); [|absent].
  destruct (top_role_le w member); [absent|].
  destruct (is_owner (guild ctx) member); [absent|].
  destruct (dm_on_kickban w), (send_outcome w (member_id member)) as [[]|],
    (kick_outcome w) as [[]|]; simpl; intros H; in_effects H; done.
Qed.

Lemma kick_guarded_witness :
  checks_pass (example_world None None None None nobody_banned []) alice_in_test_server bob
  = true.
Proof.
  apply (kick_guarded (example_world None None None None nobody_banned [])
           alice_in_test_server bob (Some "spam") 42
           "Action requested by Alice. Reason: spam").
  vm_compute. apply elem_of_cons. right. apply elem_of_cons. by left.
Defined.


(** X12: when every check has passed and [guild.kick] fails with an
    exception other than [Forbidden], nothing is sent to the channel and
    [kick] ends without an exception; with [dm_on_kickban] set and the
    direct message delivered, the member has been told of a kick that did
    not take place. *)
Theorem kick_failure_unreported (w : World) (ctx : Context) (member : Member)
    (reason : option string) (f : failure) :
  checks_pass w ctx member = true ->
  dm_on_kickban w = true ->
  send_outcome w (member_id member) = None ->
  kick_outcome w = Some f ->
  f <> Forbidden ->
  replies (kick w ctx member reason) = []
  /\ result (kick w ctx member reason) = inl tt
  /\ (forall id audit, guild_kick id audit ∉ effects (kick w ctx member reason))
  /\ send_embed (member_id member)
       (bold w ("You have been kicked from " ++ str (guild_object (guild ctx)) ++ "."))
       (get_embed_color w (member_id member)) "**Reason**"
       (reason_or_default reason) false
     ∈ effects (kick w ctx member reason).
Proof.
  unfold checks_pass, kick, replies. rewrite rendered_value.
  intros [[[Hsame Hallowed]%andb_prop Hrole]%andb_prop Howner]%andb_prop
    Hdm Hsend Hkick Hf.
  apply negb_true_iff in Hsame, Hrole, Howner.
  rewrite Hsame, Hallowed, Hrole, Howner, Hdm, Hsend, Hkick.
  destruct f; [done|..]; simpl; repeat split;
    try (intros id audit H; in_effects H; done); apply elem_of_cons; by left.
Qed.

Lemma kick_failure_unreported_witness :
  replies (kick (example_world None (Some HTTPException) None None nobody_banned [])
             alice_in_test_server bob (Some "spam")) = [].
Proof.
  apply (kick_failure_unreported
           (example_world None (Some HTTPException) None None nobody_banned [])
           alice_in_test_server bob (Some "spam") HTTPException); done.
Defined.

(** *** [ban_user] *)

(** X13: [ban_user] asks discord for a ban only with a number of days
    from 0 to 7, the one it was given, on a member only when every check
    has passed, and on another user only when [fetch_ban] found no ban;
    with another number of days it returns [(False, ...)] and does
    nothing. *)
Theorem ban_user_guarded (w : World) (user : Target) (ctx : Context)
    (days : Z) (reason : option string) (create_modlog_case : bool) :
  (~ (0 <= days <= 7)%Z ->
     ban_user w user ctx days reason create_modlog_case
     = Run [] (inl (false, "Invalid days. Must be between 0 and 7.")))
  /\ forall id audit d,
       guild_ban id audit d
         ∈ effects (ban_user w user ctx days reason create_modlog_case) ->
       (0 <= d <= 7)%Z /\ d = days /\ id = target_id user
       /\ audit = get_audit_reason w (author ctx) reason
       /\ ban_outcome w = None
       /\ match user with
          | a_Member member => checks_pass w ctx member = true
          | _ => fetch_ban w (target_id user) = inr NotFound
          end.
Proof.
  unfold ban_user, ban_user_checks, checks_pass. split.
  - intros Hdays.
    destruct (Z.leb_spec 0 days), (Z.leb_spec days 7); try done; lia.
  - intros id audit d. rewrite rendered_value.
    destruct (Z.leb_spec 0 days), (Z.leb_spec days 7);
      [|simpl; intros Hin; in_effects Hin; done..].
    destruct user as [member|u|uid o]; simpl.
    + destruct (same_user (author ctx) member); [absent|].
      destruct (is_allowed_by_hierarchy w (author ctx) member); [|absent].
      destruct (top_role_le w member); [absent|].
      destruct (is_owner (guild ctx) member); [absent|].
      destruct (dm_on_kickban w), (send_outcome w (member_id member)) as [[]|],
        (ban_outcome w) as [[]|], create_modlog_case; simpl;
        intros Hin; in_effects Hin; repeat split; auto; lia.
    + destruct (fetch_ban w (member_id u)) as [?|[]],
        (id_in (member_id u) (current_tempbans w)),
        (ban_outcome w) as [[]|], create_modlog_case; simpl;
        intros Hin; in_effects Hin; repeat split; auto; lia.
    + destruct (fetch_ban w uid) as [?|[]],
        (id_in uid (current_tempbans w)),
        (ban_outcome w) as [[]|], create_modlog_case; simpl;
        intros Hin; in_effects Hin; repeat split; auto; lia.
Qed.

(** [ban_type] *)
Definition ban_type_of (user : Target) : string :=
  match user with
  | a_Member _ => "ban"
  | _ => "hackban"
  end.

Definition upgraded_text (user : Target) : string :=
  "User with ID " ++ str_int (target_id user)
  ++ " was upgraded from a temporary to a permanent ban.".

(** X14: [ban_user] returns [(True, ...)] exactly when the user is banned
    for good afterwards: when discord accepted the ban, the text is the ban
    template rendered against the dictionary of the command; otherwise the
    user was found banned and listed as tempbanned, no ban is requested and
    the text says that the ban was upgraded.  No failure of [guild.ban]
    leaves [ban_user] as an exception: it raises only what the direct
    message or [fetch_ban] raised. *)
Theorem ban_user_success (w : World) (user : Target) (ctx : Context)
    (days : Z) (reason : option string) (create_modlog_case : bool) :
  let r := ban_user w user ctx days reason create_modlog_case in
  let audit := get_audit_reason w (author ctx) reason in
  (guild_ban (target_id user) audit days ∈ effects r ->
     exists text,
       transform_message (ban_message w)
         (ban_dictionary (target_object user) (member_object (author ctx))
            (reason_object w reason) (guild_object (guild ctx))
            (int_object w days)) = Ok text
       /\ result r = inl (true, text))
  /\ (forall text, result r = inl (true, text) ->
        guild_ban (target_id user) audit days ∈ effects r
        \/ (text = upgraded_text user
            /\ id_in (target_id user) (current_tempbans w) = true
            /\ (exists entry, fetch_ban w (target_id user) = inl entry)
            /\ forall id a d, guild_ban id a d ∉ effects r))
  /\ (forall f, result r = inr f ->
        match user with
        | a_Member member =>
            send_outcome w (member_id member) = Some f
            /\ is_HTTPException f = false
        | _ => fetch_ban w (target_id user) = inr f /\ f <> NotFound
        end).
Proof.
  cbv zeta. unfold ban_user, ban_user_checks, upgraded_text.
  rewrite rendered_value, transform_message_value.
  destruct (Z.leb_spec 0 days), (Z.leb_spec days 7);
    [|simpl; (split; [absent|split; [by intros text [= <-]|by intros f [= <-]]])..].
  destruct user as [member|u|uid o]; simpl.
  - destruct (same_user (author ctx) member);
      [split; [absent|split; [by intros text [= <-]|by intros f [= <-]]]|].
    destruct (is_allowed_by_hierarchy w (author ctx) member);
      [|split; [absent|split; [by intros text [= <-]|by intros f [= <-]]]].
    destruct (top_role_le w member);
      [split; [absent|split; [by intros text [= <-]|by intros f [= <-]]]|].
    destruct (is_owner (guild ctx) member);
      [split; [absent|split; [by intros text [= <-]|by intros f [= <-]]]|].
    destruct (dm_on_kickban w), (send_outcome w (member_id member)) as [[]|],
      (ban_outcome w) as [[]|], create_modlog_case; simpl;
      (split; [intros Hin; in_effects Hin; eauto|]);
      (split; [intros text [= <-]; left; set_unfold; by auto
              |by intros f [= <-]]).
  - destruct (fetch_ban w (member_id u)) as [?|[]],
      (id_in (member_id u) (current_tempbans w)),
      (ban_outcome w) as [[]|], create_modlog_case; simpl;
      (split; [intros Hin; in_effects Hin; eauto|]);
      (split; [intros text [= <-];
               first [left; set_unfold; by auto
                     |right; repeat split; eauto; absent]
              |by intros f [= <-]]).
  - destruct (fetch_ban w uid) as [?|[]],
      (id_in uid (current_tempbans w)),
      (ban_outcome w) as [[]|], create_modlog_case; simpl;
      (split; [intros Hin; in_effects Hin; eauto|]);
      (split; [intros text [= <-];
               first [left; set_unfold; by auto
                     |right; repeat split; eauto; absent]
              |by intros f [= <-]]).
Qed.

(** X15: [ban_user] creates a modlog case exactly when it was asked to and
    returns [(True, ...)]; the case is then the last effect, of type [ban]
    for a member and [hackban] for another user. *)
Theorem ban_user_modlog (w : World) (user : Target) (ctx : Context)
    (days : Z) (reason : option string) (create_modlog_case : bool) :
  let r := ban_user w user ctx days reason create_modlog_case in
  let case :=
    create_case (created_at ctx) (ban_type_of user) (target_id user)
      (member_id (author ctx)) reason None in
  (forall c a u m t until, create_case c a u m t until ∈ effects r ->
     create_case c a u m t until = case
     /\ create_modlog_case = true
     /\ exists text, result r = inl (true, text))
  /\ (forall text, create_modlog_case = true -> result r = inl (true, text) ->
       last (effects r) = Some case).
Proof.
  cbv zeta. unfold ban_user, ban_user_checks, ban_type_of.
  rewrite rendered_value.
  destruct (Z.leb_spec 0 days), (Z.leb_spec days 7);
    [|simpl; (split; [absent|by intros text _ [= <-]])..].
  destruct user as [member|u|uid o]; simpl.
  - destruct (same_user (author ctx) member);
      [split; [absent|by intros text _ [= <-]]|].
    destruct (is_allowed_by_hierarchy w (author ctx) member);
      [|split; [absent|by intros text _ [= <-]]].
    destruct (top_role_le w member); [split; [absent|by intros text _ [= <-]]|].
    destruct (is_owner (guild ctx) member);
      [split; [absent|by intros text _ [= <-]]|].
    destruct (dm_on_kickban w), (send_outcome w (member_id member)) as [[]|],
      (ban_outcome w) as [[]|], create_modlog_case; simpl;
      (split; [intros c' a' u' m' t' until' Hin; in_effects Hin; eauto
              |by intros text ? [= <-]]).
  - destruct (fetch_ban w (member_id u)) as [?|[]],
      (id_in (member_id u) (current_tempbans w)),
      (ban_outcome w) as [[]|], create_modlog_case; simpl;
      (split; [intros c' a' u' m' t' until' Hin; in_effects Hin; eauto
              |by intros text ? [= <-]]).
  - destruct (fetch_ban w uid) as [?|[]],
      (id_in uid (current_tempbans w)),
      (ban_outcome w) as [[]|], create_modlog_case; simpl;
      (split; [intros c' a' u' m' t' until' Hin; in_effects Hin; eauto
              |by intros text ? [= <-]]).
Qed.

Lemma remove_first_Permutation (id : Z) (ids : list Z) :
  id_in id ids = true -> ids ≡ₚ id :: remove_first id ids.
Proof.
  induction ids as [|x ids IH]; [done|]. simpl.
  destruct (Z.eqb_spec id x) as [->|Hne].
  - intros _. by rewrite Z.eqb_refl.
  - simpl. intros Hin. destruct (Z.eqb_spec x id); [congruence|].
    rewrite (IH Hin) at 1. apply Permutation_swap.
Qed.

(** X16: when [ban_user] rewrites the list of tempbans, the user was found
    banned and listed there, and the new list is the old one with one entry
    of the user's id taken out: an id that was listed twice stays
    listed. *)
Theorem ban_user_upgrade (w : World) (user : Target) (ctx : Context)
    (days : Z) (reason : option string) (create_modlog_case : bool)
    (ids : list Z) :
  set_current_tempbans ids
    ∈ effects (ban_user w user ctx days reason create_modlog_case) ->
  current_tempbans w ≡ₚ target_id user :: ids
  /\ ids = remove_first (target_id user) (current_tempbans w)
  /\ (exists entry, fetch_ban w (target_id user) = inl entry)
  /\ result (ban_user w user ctx days reason create_modlog_case)
     = inl (true, upgraded_text user).
Proof.
  unfold ban_user, ban_user_checks, upgraded_text. rewrite rendered_value.
  destruct (Z.leb_spec 0 days), (Z.leb_spec days 7); [|absent..].
  destruct user as [member|u|uid o]; simpl.
  - destruct (same_user (author ctx) member); [absent|].
    destruct (is_allowed_by_hierarchy w (author ctx) member); [|absent].
    destruct (top_role_le w member); [absent|].
    destruct (is_owner (guild ctx) member); [absent|].
    destruct (dm_on_kickban w), (send_outcome w (member_id member)) as [[]|],
      (ban_outcome w) as [[]|], create_modlog_case; absent.
  - destruct (fetch_ban w (member_id u)) as [?|[]],
      (id_in (member_id u) (current_tempbans w)) eqn:Hlisted,
      (ban_outcome w) as [[]|], create_modlog_case; simpl;
      intros Hin; in_effects Hin;
      (split; [by apply remove_first_Permutation|eauto]).
  - destruct (fetch_ban w uid) as [?|[]],
      (id_in uid (current_tempbans w)) eqn:Hlisted,
      (ban_outcome w) as [[]|], create_modlog_case; simpl;
      intros Hin; in_effects Hin;
      (split; [by apply remove_first_Permutation|eauto]).
Qed.

Lemma ban_user_upgrade_witness :
  [42; 5; 42]%Z ≡ₚ 42%Z :: [5; 42]%Z.
Proof.
  apply (ban_user_upgrade
           (example_world None None None None (fun _ => inl bob) [42; 5; 42]%Z)
           (an_Object 42 (PyStr "<Object id=42>")) alice_in_test_server
           0 None false [5; 42]%Z).
  vm_compute. apply elem_of_cons. by left.
Defined.

(** *** [softban] *)



(** X18: when discord accepts the ban of [softban] and then fails to lift
    it, the member stays banned, nothing is sent to the channel, and
    [softban] ends without an exception. *)
Theorem softban_left_banned (w : World) (ctx : Context) (member : Member)
    (reason : option string) (f : failure) :
  same_user (author ctx) member = false ->
  is_allowed_by_hierarchy w (author ctx) member = true ->
  match send_outcome w (member_id member) with
  | Some f' => is_HTTPException f' = true
  | None => True
  end ->
  ban_outcome w = None ->
  unban_outcome w = Some f ->
  is_HTTPException f = true ->
  guild_ban (member_id member) (get_audit_reason w (author ctx) reason) 1
    ∈ effects (softban w ctx member reason)
  /\ (forall id r, guild_unban id r ∉ effects (softban w ctx member reason))
  /\ replies (softban w ctx member reason) = []
  /\ result (softban w ctx member reason) = inl tt.
Proof.
  unfold softban, replies. rewrite rendered_value.
  intros -> -> Hsend -> -> Hf.
  destruct (send_outcome w (member_id member)) as [[]|]; try done;
    destruct f; try done; simpl; repeat split; try absent; listed.
Qed.

Lemma softban_left_banned_witness :
  replies (softban (example_world None None None (Some HTTPException) nobody_banned [])
             alice_in_test_server bob (Some "spam"))
  = [].
Proof.
  apply (softban_left_banned
           (example_world None None None (Some HTTPException) nobody_banned [])
           alice_in_test_server bob (Some "spam") HTTPException); done.
Defined.

(** *** [unban] *)



(** X20: [unban] never reinvites.  The setting [reinvite_on_unban] is read
    from the cog's own configuration, where it is not registered, so the
    read raises: no direct message is sent on any run, [bot.get_user] and
    the invite are never used, at most one text goes to the channel, and a
    run in which the ban was lifted does not end normally. *)
Theorem unban_never_reinvites (w : World) (ctx : Context) (user_id : Z)
    (reason : option string) :
  (forall to content,
     send_message to content ∉ effects (unban w ctx user_id reason))
  /\ length (replies (unban w ctx user_id reason)) <= 1
  /\ (forall id unban_reason,
        guild_unban id unban_reason ∈ effects (unban w ctx user_id reason) ->
        result (unban w ctx user_id reason) <> inl tt)
  /\ forall w',
       fetch_ban w' = fetch_ban w ->
       unban_outcome w' = unban_outcome w ->
       get_audit_reason w' = get_audit_reason w ->
       unban_message w' = unban_message w ->
       str_attributes w' = str_attributes w ->
       None_attributes w' = None_attributes w ->
       unban w' ctx user_id reason = unban w ctx user_id reason.
Proof.
  unfold unban, unban_reinvite, reinvite_on_unban, replies.
  repeat split.
  - destruct (fetch_ban w user_id) as [user|[]]; try absent.
    rewrite rendered_value.
    destruct (unban_outcome w) as [[]|]; absent.
  - destruct (fetch_ban w user_id) as [user|[]]; try (simpl; lia).
    rewrite rendered_value.
    destruct (unban_outcome w) as [[]|]; simpl; lia.
  - destruct (fetch_ban w user_id) as [user|[]]; try absent.
    rewrite rendered_value.
    destruct (unban_outcome w) as [[]|]; absent.
  - intros w' -> -> -> -> Hstr Hnone. unfold reason_object.
    by rewrite Hstr, Hnone.
Qed.

Lemma unban_never_reinvites_witness :
  result (unban (example_world None None None None (fun _ => inl bob) [])
            alice_in_test_server 42 (Some "appeal accepted"))
  <> inl tt.
Proof.
  apply (unban_never_reinvites
           (example_world None None None None (fun _ => inl bob) [])
           alice_in_test_server 42 (Some "appeal accepted"))
    with (id := 42%Z)
         (unban_reason := Some "Action requested by Alice. Reason: appeal accepted").
  vm_compute. listed.
Defined.

(** *** [tempban] *)

(** X21: [tempban] bans nobody: when a check fails it sends the refusal
    and nothing else, and when the checks pass it raises [AttributeError]
    at [datetime.timezone], before any configuration is written and before
    any request to discord. *)
Theorem tempban_never_bans (w : World) (ctx : Context) (member : Member)
    (duration : option Timedelta) (days : option Z) (reason : option string) :
  (checks_pass w ctx member = true ->
     tempban w ctx member duration days reason = Run [] (inr AttributeError))
  /\ (checks_pass w ctx member = false ->
       exists refusal,
         refusal ∈ refusals
         /\ tempban w ctx member duration days reason
            = Run [ctx_send refusal] (inl tt)).
Proof.
  unfold tempban, checks_pass, refusals.
  destruct (same_user (author ctx) member);
    [split; [done|intros _; eexists; split; [|done]; listed]|].
  destruct (is_allowed_by_hierarchy w (author ctx) member);
    [|split; [done|intros _; eexists; split; [|done]; listed]].
  destruct (top_role_le w member);
    [split; [done|intros _; eexists; split; [|done]; listed]|].
  destruct (is_owner (guild ctx) member);
    [split; [done|intros _; eexists; split; [|done]; listed]|].
  split; [|done]. intros _. done.
Qed.

End Commands.
